(** * kube-arangodb: credential reconciliation, client construction and the
      backup download-error handler

    A shallow embedding of

    - package [resources] ([EnsureSecrets] and the [ensure*Secret] family),
    - package [arangod] (the shared transports, the HTTP connection
      configuration, the authentication selection and the client builders),
    - package [backup] ([stateDownloadErrorHandler]).

    The Go functions talk to collaborators that are interfaces or other
    packages (the secret store, [k8sutil] helpers, [crypto/rand], [jwt-go],
    the go-driver constructors, the metrics registry, the clock).  Every such
    call is an operation of the signature [Op]; a Go function becomes a
    program [Prog] over that signature, i.e. the tree of the calls it makes
    and of what it does with each answer.  A handler gives the operations a
    meaning over some world; theorems quantified over the handler hold for
    every behaviour of the collaborators, and [Mem] is one concrete handler
    (an in-memory secret store) on which programs can be evaluated. *)

From Stdlib Require Import ZArith String Ascii.
From stdpp Require Import base option list gmap strings pretty.

Set Warnings "-register-all".
Local Open Scope string_scope.

(** ** Go errors *)

(** The reason carried by a [k8s.io/apimachinery] status error. *)
Inductive StatusReason :=
| StatusReasonNotFound
| StatusReasonAlreadyExists
| StatusReasonOther (reason : string).

(** A non-nil Go [error] value, as far as this code can observe it:
    a status error of the store, a fresh error made by [errors.Errorf] or
    [fmt.Errorf], and the two wrappers of [github.com/pkg/errors].
    The Go [error] interface itself is [option error], [None] being [nil]. *)
Inductive error :=
| StatusError (reason : StatusReason)
| Errorf (msg : string)
| Wrapf (cause : error) (msg : string)
| WithStack (cause : error).

#[global] Instance StatusReason_eq_dec : EqDecision StatusReason.
Proof. solve_decision. Defined.
#[global] Instance error_eq_dec : EqDecision error.
Proof. solve_decision. Defined.

(** [errors.Cause]: strip the wrappers. *)
Fixpoint Cause (e : error) : error :=
  match e with
  | Wrapf c _ => Cause c
  | WithStack c => Cause c
  | _ => e
  end.

(** [apierrors.IsNotFound] and [apierrors.IsAlreadyExists] look at the error
    they are given, without unwrapping. *)
Definition apierrors_IsNotFound (err : option error) : bool :=
  match err with
  | Some (StatusError StatusReasonNotFound) => true
  | _ => false
  end.

Definition apierrors_IsAlreadyExists (err : option error) : bool :=
  match err with
  | Some (StatusError StatusReasonAlreadyExists) => true
  | _ => false
  end.

(** Modelled from the spec: [maskAny], the package-level error mask of
    [resources], [arangod] and [k8sutil], is not under src; it adds context
    to an error and keeps its cause ([errors.WithStack]). *)
Definition maskAny (e : error) : error := WithStack e.

(** Modelled from the spec: [k8sutil.IsNotFound] and
    [k8sutil.IsAlreadyExists] are not under src; they classify an error by the
    reason of its cause, so that a masked store error is still recognised. *)
Definition IsNotFound (err : option error) : bool :=
  apierrors_IsNotFound (Cause <$> err).

Definition IsAlreadyExists (err : option error) : bool :=
  apierrors_IsAlreadyExists (Cause <$> err).

(** Whether an error is, at its cause, an error of the secret store. *)
Definition IsStoreError (e : error) : bool :=
  match Cause e with
  | StatusError _ => true
  | _ => false
  end.

(** ** Go values held in a claim map *)

(** The dynamically typed values that occur in claim maps.  Each constructor
    is one Go type: [nil], [string], [bool], [[]string], [[]interface{}],
    [map[string]interface{}] and the defined type [jwt.MapClaims].  A map is
    kept as the list of its entries; Go maps have no duplicate keys. *)
Inductive value :=
| Nil
| String_ (s : string)
| Bool_ (b : bool)
| SliceOfString (l : list string)
| SliceOfInterface (l : list value)
| MapStringInterface (m : list (string * value))
| MapClaims (m : list (string * value)).

(** [reflect.Value.MapIndex]: the value under a key, if the key is present. *)
Fixpoint MapIndex (m : list (string * value)) (k : string) : option value :=
  match m with
  | [] => None
  | (k', v) :: m' => if decide (k' = k) then Some v else MapIndex m' k
  end.

(** [equality.Semantic.DeepEqual]: values of different dynamic types are
    never equal; slices are compared element by element; maps by size and then
    key by key; an absent key compares unequal to every value. *)
Fixpoint deepValueEqual (v1 v2 : value) {struct v1} : bool :=
  match v1, v2 with
  | Nil, Nil => true
  | String_ a, String_ b => bool_decide (a = b)
  | Bool_ a, Bool_ b => bool_decide (a = b)
  | SliceOfString a, SliceOfString b => bool_decide (a = b)
  | SliceOfInterface a, SliceOfInterface b =>
      (fix elems (l1 l2 : list value) : bool :=
         match l1, l2 with
         | [], [] => true
         | x :: l1', y :: l2' => deepValueEqual x y && elems l1' l2'
         | _, _ => false
         end) a b
  | MapStringInterface a, MapStringInterface b =>
      Nat.eqb (length a) (length b) &&
      (fix keys (m : list (string * value)) : bool :=
         match m with
         | [] => true
         | (k, x) :: m' =>
             match MapIndex b k with
             | Some y => deepValueEqual x y
             | None => false
             end && keys m'
         end) a
  | MapClaims a, MapClaims b =>
      Nat.eqb (length a) (length b) &&
      (fix keys (m : list (string * value)) : bool :=
         match m with
         | [] => true
         | (k, x) :: m' =>
             match MapIndex b k with
             | Some y => deepValueEqual x y
             | None => false
             end && keys m'
         end) a
  | _, _ => false
  end.

Definition DeepEqual (a1 a2 : value) : bool := deepValueEqual a1 a2.

(** ** Secrets, owners and the desired specification *)

Record OwnerReference := { owner_Name : string; owner_UID : string }.

(** A [v1.Secret]: name, data (field name to bytes; Go's [[]byte] and
    [string] conversions are the identity on bytes, both are [string] here)
    and the owner references attached to it. *)
Record Secret := {
  secret_Name : string;
  secret_Data : gmap string string;
  secret_OwnerReferences : list OwnerReference;
}.

Record TLSSpec := { GetCASecretName : string }.

Record SyncAuthenticationSpec := {
  sync_GetJWTSecretName : string;
  GetClientCASecretName : string;
}.

(** [api.DeploymentSpec], as far as [EnsureSecrets] and the client factory
    read it.  The toggles ([IsAuthenticated], [IsSecure], ...) are methods of
    the API package; here each is a field holding the method's result. *)
Record DeploymentSpec := {
  IsAuthenticated : bool;
  Authentication_GetJWTSecretName : string;
  Metrics_IsEnabled : bool;
  Metrics_GetJWTTokenSecretName : string;
  IsSecure : bool;
  TLS : TLSSpec;
  RocksDB_IsEncrypted : bool;
  RocksDB_Encryption_GetKeySecretName : string;
  Sync_IsEnabled : bool;
  Sync_Authentication : SyncAuthenticationSpec;
  Sync_Monitoring_GetTokenSecretName : string;
  Sync_TLS : TLSSpec;
}.

(** [api.ArangoDeployment]: the API object. *)
Record ArangoDeployment := {
  GetName : string;
  GetNamespace : string;
  AsOwner : OwnerReference;
  Spec : DeploymentSpec;
}.

(** Constants and naming helpers of packages [constants], [k8sutil] and
    [pod], none of which is under src: the code is verified for every value
    of them. *)
Class K8sUtil := {
  SecretKeyToken : string;
  SecretEncryptionKey : string;
  ArangoExporterInternalEndpoint : string;
  ArangoPort : Z;
  GetKeyfolderSecretName : string -> string;
  CreatePodDNSName : ArangoDeployment -> string -> string -> string;
  CreateDatabaseClientServiceDNSName : ArangoDeployment -> string;
}.

(** ** The client-side data of package [arangod] *)

Definition Duration := Z.
Definition Nanosecond : Duration := 1%Z.
Definition Millisecond : Duration := (1000000 * Nanosecond)%Z.
Definition Second : Duration := (1000 * Millisecond)%Z.
Definition Minute : Duration := (60 * Second)%Z.

Record Dialer := { Timeout : Duration; KeepAlive : Duration; DualStack : bool }.
Record TLSConfig := { InsecureSkipVerify : bool }.
Inductive ProxyFunc := ProxyFromEnvironment.

(** [nhttp.Transport], the fields the package sets. *)
Record Transport := {
  Proxy : ProxyFunc;
  DialContext : Dialer;
  MaxIdleConns : Z;
  IdleConnTimeout : Duration;
  TLSHandshakeTimeout : Duration;
  ExpectContinueTimeout : Duration;
  TLSClientConfig : option TLSConfig;
}.

Record ConnectionConfig := {
  cc_Transport : Transport;
  DontFollowRedirect : bool;
  Endpoints : list string;
}.

(** The go-driver objects are opaque to this package; each remembers what it
    was built from. *)
Record Connection := { conn_Config : ConnectionConfig }.
Inductive Authentication := RawAuthentication (header : string).
Record ClientConfig := {
  cfg_Connection : Connection;
  cfg_Authentication : option Authentication;
}.
Record Client := { client_Config : ClientConfig }.

(** A parsed [jwt.Token]: only its claims are read. *)
Record Token := { Claims : value }.

(** ** Operations and programs *)

(** The calls the embedded functions make on their collaborators, indexed by
    the type of the answer.  A Go result [(T, error)] is [T + error]; a Go
    result [error] is [option error]. *)
Inductive Op : Type -> Type :=
(* k8sutil.SecretInterface *)
| SecretsGet (name : string) : Op (Secret + error)
| SecretsDelete (name : string) : Op (option error)
(* crypto/rand.Read on a buffer of n bytes *)
| RandRead (n : nat) : Op string
(* package k8sutil *)
| CreateTokenSecret (secretName token : string) (ownerRef : OwnerReference) :
    Op (option error)
| GetTokenSecret (secretName : string) : Op (string + error)
| CreateJWTFromSecret (tokenSecretName secretSecretName : string)
    (claims : value) (ownerRef : OwnerReference) : Op (option error)
| AppendKeyfileToKeyfolder (ownerRef : OwnerReference) (secretName : string)
    (encryptionKey : string) : Op (option error)
(* package resources, other files *)
| createTLSCACertificate (spec : TLSSpec) (deploymentName : string)
    (ownerRef : OwnerReference) : Op (option error)
| createClientAuthCACertificate (spec : SyncAuthenticationSpec)
    (deploymentName : string) (ownerRef : OwnerReference) : Op (option error)
(* jwt-go: Parse with a key function returning the given key *)
| JwtParse (tokenString key : string) : Op (Token + error)
(* go-driver *)
| CreateArangodJwtAuthorizationHeader (jwtSecret serverID : string) :
    Op (string + error)
| NewConnection (config : ConnectionConfig) : Op (Connection + error)
| NewClient (config : ClientConfig) : Op (Client + error)
(* package metrics *)
| CounterInc (deploymentName : string) : Op unit
| SetDuration (deploymentName : string) (start : Z) : Op unit
(* time.Now and meta.Now, in nanoseconds *)
| TimeNow : Op Z.

Inductive Prog (A : Type) : Type :=
| Ret (a : A)
| Vis {R : Type} (op : Op R) (k : R -> Prog A).
Arguments Ret {A} a.
Arguments Vis {A R} op k.

Fixpoint bind {A B : Type} (p : Prog A) (f : A -> Prog B) : Prog B :=
  match p with
  | Ret a => f a
  | Vis op k => Vis op (fun r => bind (k r) f)
  end.

(** A single call. *)
Definition call {R : Type} (op : Op R) : Prog R := Vis op Ret.

Notation "'let*' x ':=' p 'in' k" := (bind p (fun x => k))
  (at level 10, x name, p at level 100, k at level 200).
Notation "'let*' ' pat ':=' p 'in' k" :=
  (bind p (fun x => match x with pat => k end))
  (at level 10, pat pattern, p at level 100, k at level 200).
Notation "'do' p 'in' k" := (bind p (fun _ => k))
  (at level 10, p at level 100, k at level 200).

(** One entry of a trace: a call that was made. *)
Inductive Call :=
| Called : forall {R : Type}, Op R -> Call.

Record Outcome (A W : Type) := {
  result : A;
  world : W;
  trace : list Call;
}.
Arguments result {A W} o.
Arguments world {A W} o.
Arguments trace {A W} o.

(** Running a program against a handler: the answer to each call and the
    next world are the handler's. *)
Fixpoint run {W A : Type} (handle : forall R, Op R -> W -> R * W)
    (p : Prog A) (w : W) : Outcome A W :=
  match p with
  | Ret a => {| result := a; world := w; trace := [] |}
  | Vis op k =>
      let '(r, w') := handle _ op w in
      let o := run handle (k r) w' in
      {| result := result o; world := world o; trace := Called op :: trace o |}
  end.

(** The secret a call creates, and the secret a call deletes. *)
Definition creates (c : Call) : option string :=
  match c with
  | Called (CreateTokenSecret name _ _) => Some name
  | Called (CreateJWTFromSecret name _ _ _) => Some name
  | Called (AppendKeyfileToKeyfolder _ name _) => Some name
  | Called (createTLSCACertificate spec _ _) => Some (GetCASecretName spec)
  | Called (createClientAuthCACertificate spec _ _) =>
      Some (GetClientCASecretName spec)
  | _ => None
  end.

Definition deletes (c : Call) : option string :=
  match c with
  | Called (SecretsDelete name) => Some name
  | _ => None
  end.

(** Whether a call reaches the secret store at all. *)
Definition isSecretOp (c : Call) : bool :=
  match c with
  | Called (SecretsGet _) | Called (SecretsDelete _)
  | Called (CreateTokenSecret _ _ _) | Called (GetTokenSecret _)
  | Called (CreateJWTFromSecret _ _ _ _)
  | Called (AppendKeyfileToKeyfolder _ _ _)
  | Called (createTLSCACertificate _ _ _)
  | Called (createClientAuthCACertificate _ _ _) => true
  | _ => false
  end.

(** Go's [if err := f(); err != nil { return maskAny(err) }]: the masked
    error of [p], if any. *)
Definition masked (p : Prog (option error)) : Prog (option error) :=
  let* err := p in Ret (maskAny <$> err).

(** Sequencing of two blocks of a function of result [error]: a non-nil
    result of the first block is the function's result (an early return),
    otherwise the second block runs. *)
Definition andThen (p q : Prog (option error)) : Prog (option error) :=
  let* err := p in
  match err with
  | Some e => Ret (Some e)
  | None => q
  end.
Infix ";;;" := andThen (at level 100, right associativity).

(** [encoding/hex.EncodeToString]: two lower-case hexadecimal digits per
    byte. *)
Definition hexDigit (n : N) : ascii :=
  match String.get (N.to_nat n) "0123456789abcdef" with
  | Some c => c
  | None => "0"%char
  end.

Fixpoint EncodeToString (src : string) : string :=
  match src with
  | EmptyString => EmptyString
  | String c rest =>
      String (hexDigit (N_of_ascii c / 16))
        (String (hexDigit (N_of_ascii c mod 16)) (EncodeToString rest))
  end.

(** ** Package [resources] *)

(** The receiver [r *Resources], as far as these functions use it:
    [r.context.GetAPIObject()] and [r.context.GetSpec()]. *)
Record Resources := {
  GetAPIObject : ArangoDeployment;
  GetSpec : DeploymentSpec;
}.

Section Ensure.
Context `{K8sUtil}.
Variable r : Resources.

(** [ensureTokenSecret]: create a random token secret if none of that name
    exists. *)
Definition ensureTokenSecret (secretName : string) : Prog (option error) :=
  let* got := call (SecretsGet secretName) in
  let err := match got with inl _ => None | inr e => Some e end in
  if IsNotFound err then
    let* tokenData := call (RandRead 32) in
    let token := EncodeToString tokenData in
    let owner := AsOwner (GetAPIObject r) in
    let* err := call (CreateTokenSecret secretName token owner) in
    if IsAlreadyExists err then Ret None
    else match err with
         | Some e => Ret (Some (maskAny e))
         | None => Ret None
         end
  else match err with
       | Some e => Ret (Some (maskAny e))
       | None => Ret None
       end.

Definition ensureEncryptionKeyfolderSecret
    (keyfileSecretName secretName : string) : Prog (option error) :=
  let* got := call (SecretsGet keyfileSecretName) in
  match got with
  | inr err => Ret (Some (Wrapf err "Unable to find original secret"))
  | inl keyfile =>
      if Nat.eqb (size (secret_Data keyfile)) 0 then
        Ret (Some (Errorf "Missing key in secret"))
      else
        match secret_Data keyfile !! SecretEncryptionKey with
        | None => Ret (Some (Errorf "Missing key in secret"))
        | Some d =>
            let owner := AsOwner (GetAPIObject r) in
            let* err := call (AppendKeyfileToKeyfolder owner secretName d) in
            match err with
            | Some e =>
                Ret (Some (Wrapf e "Unable to create keyfolder secret"))
            | None => Ret None
            end
        end
  end.

Definition exporterTokenClaims : value :=
  MapStringInterface
    [ ("iss", String_ "arangodb");
      ("server_id", String_ "exporter");
      ("allowed_paths",
       SliceOfString [ "/_admin/statistics";
                       "/_admin/statistics-description";
                       ArangoExporterInternalEndpoint ]) ].

(** Result [(recreate, exists, err)]. *)
Definition ensureExporterTokenSecretCreateRequired
    (tokenSecretName secretSecretName : string) :
    Prog (bool * bool * option error) :=
  let* got := call (SecretsGet tokenSecretName) in
  match got with
  | inr err =>
      if IsNotFound (Some err) then Ret (true, false, None)
      else Ret (false, false, Some (maskAny err))
  | inl secret =>
      match secret_Data secret !! SecretKeyToken with
      | None => Ret (true, true, None)
      | Some data =>
          let* got := call (GetTokenSecret secretSecretName) in
          match got with
          | inr err => Ret (false, true, Some (maskAny err))
          | inl secret =>
              let* parsed := call (JwtParse data secret) in
              match parsed with
              | inr _ => Ret (true, true, None)
              | inl token =>
                  match Claims token with
                  | MapClaims _ as tokenClaims =>
                      Ret (negb (DeepEqual tokenClaims exporterTokenClaims),
                            true, None)
                  | _ => Ret (true, true, None)
                  end
              end
          end
      end
  end.

Definition ensureExporterTokenSecret
    (tokenSecretName secretSecretName : string) : Prog (option error) :=
  let* '(recreate, exists_, err) :=
    ensureExporterTokenSecretCreateRequired tokenSecretName secretSecretName in
  match err with
  | Some e => Ret (Some e)
  | None =>
      if recreate then
        (if exists_ then
           let* err := call (SecretsDelete tokenSecretName) in
           if bool_decide (err ≠ None) && negb (apierrors_IsNotFound err)
           then Ret err else Ret None
         else Ret None) ;;;
        (let owner := AsOwner (GetAPIObject r) in
         let* err := call (CreateJWTFromSecret tokenSecretName secretSecretName
                       exporterTokenClaims owner) in
         if IsAlreadyExists err then Ret None
         else match err with
              | Some e => Ret (Some (maskAny e))
              | None => Ret None
              end)
      else Ret None
  end.

Definition ensureTLSCACertificateSecret (spec : TLSSpec) :
    Prog (option error) :=
  let* got := call (SecretsGet (GetCASecretName spec)) in
  let err := match got with inl _ => None | inr e => Some e end in
  if IsNotFound err then
    let apiObject := GetAPIObject r in
    let owner := AsOwner apiObject in
    let deploymentName := GetName apiObject in
    let* err := call (createTLSCACertificate spec deploymentName owner) in
    if IsAlreadyExists err then Ret None
    else match err with
         | Some e => Ret (Some (maskAny e))
         | None => Ret None
         end
  else match err with
       | Some e => Ret (Some (maskAny e))
       | None => Ret None
       end.

Definition ensureClientAuthCACertificateSecret
    (spec : SyncAuthenticationSpec) : Prog (option error) :=
  let* got := call (SecretsGet (GetClientCASecretName spec)) in
  let err := match got with inl _ => None | inr e => Some e end in
  if IsNotFound err then
    let apiObject := GetAPIObject r in
    let owner := AsOwner apiObject in
    let deploymentName := GetName apiObject in
    let* err :=
      call (createClientAuthCACertificate spec deploymentName owner) in
    if IsAlreadyExists err then Ret None
    else match err with
         | Some e => Ret (Some (maskAny e))
         | None => Ret None
         end
  else match err with
       | Some e => Ret (Some (maskAny e))
       | None => Ret None
       end.

(** [EnsureSecrets]: the four guarded blocks in order, between the reading
    of the start time and the deferred [metrics.SetDuration]. *)
Definition EnsureSecrets : Prog (option error) :=
  let* start := call TimeNow in
  let spec := GetSpec r in
  let deploymentName := GetName (GetAPIObject r) in
  let* err :=
    ((if IsAuthenticated spec then
        do call (CounterInc deploymentName) in
        (masked (ensureTokenSecret (Authentication_GetJWTSecretName spec)) ;;;
         (if Metrics_IsEnabled spec then
            masked (ensureExporterTokenSecret
                      (Metrics_GetJWTTokenSecretName spec)
                      (Authentication_GetJWTSecretName spec))
          else Ret None))
      else Ret None) ;;;
     (if IsSecure spec then
        do call (CounterInc deploymentName) in
        masked (ensureTLSCACertificateSecret (TLS spec))
      else Ret None) ;;;
     (if RocksDB_IsEncrypted spec then
        masked (ensureEncryptionKeyfolderSecret
                  (RocksDB_Encryption_GetKeySecretName spec)
                  (GetKeyfolderSecretName deploymentName))
      else Ret None) ;;;
     (if Sync_IsEnabled spec then
        (do call (CounterInc deploymentName) in
         masked (ensureTokenSecret
                   (sync_GetJWTSecretName (Sync_Authentication spec)))) ;;;
        (do call (CounterInc deploymentName) in
         masked (ensureTokenSecret
                   (Sync_Monitoring_GetTokenSecretName spec))) ;;;
        (do call (CounterInc deploymentName) in
         masked (ensureTLSCACertificateSecret (Sync_TLS spec))) ;;;
        (do call (CounterInc deploymentName) in
         masked (ensureClientAuthCACertificateSecret
                   (Sync_Authentication spec)))
      else Ret None)) in
  do call (SetDuration deploymentName start) in
  Ret err.

(** Two reference passes, to compare [EnsureSecrets] with: the pass that
    ensures the primary token secret and nothing else, and the pass that
    ensures the primary token secret and then the exporter token. *)
Definition ensureOnlyToken : Prog (option error) :=
  let* start := call TimeNow in
  do call (CounterInc (GetName (GetAPIObject r))) in
  let* err :=
    masked (ensureTokenSecret
              (Authentication_GetJWTSecretName (GetSpec r))) in
  do call (SetDuration (GetName (GetAPIObject r)) start) in
  Ret err.

Definition ensureTokenAndExporter : Prog (option error) :=
  let* start := call TimeNow in
  do call (CounterInc (GetName (GetAPIObject r))) in
  let* err :=
    (masked (ensureTokenSecret
               (Authentication_GetJWTSecretName (GetSpec r))) ;;;
     masked (ensureExporterTokenSecret
               (Metrics_GetJWTTokenSecretName (GetSpec r))
               (Authentication_GetJWTSecretName (GetSpec r)))) in
  do call (SetDuration (GetName (GetAPIObject r)) start) in
  Ret err.

End Ensure.

(** ** Package [arangod] *)

(** The context keys of the package, and any other key a caller may have
    set. *)
Inductive ctxKey :=
| skipAuthenticationKey
| requireAuthenticationKey
| otherKey (name : string).

#[global] Instance ctxKey_eq_dec : EqDecision ctxKey.
Proof. solve_decision. Defined.

(** A [context.Context]: the chain of [context.WithValue] frames. *)
Inductive Ctx :=
| Background
| WithValue (parent : Ctx) (key : ctxKey) (val : value).

(** [ctx.Value(key)]: the innermost value set for the key, else [nil]. *)
Fixpoint Value (ctx : Ctx) (key : ctxKey) : value :=
  match ctx with
  | Background => Nil
  | WithValue parent k v => if decide (k = key) then v else Value parent key
  end.

Definition isNil (v : value) : bool :=
  match v with Nil => true | _ => false end.

Definition WithSkipAuthentication (ctx : Ctx) : Ctx :=
  WithValue ctx skipAuthenticationKey (Bool_ true).

Definition WithRequireAuthentication (ctx : Ctx) : Ctx :=
  WithValue ctx requireAuthenticationKey (Bool_ true).

Local Open Scope Z_scope.

Definition sharedHTTPTransport : Transport := {|
  Proxy := ProxyFromEnvironment;
  DialContext := {| Timeout := 30 * Second; KeepAlive := 90 * Second;
                    DualStack := true |};
  MaxIdleConns := 100;
  IdleConnTimeout := 90 * Second;
  TLSHandshakeTimeout := 10 * Second;
  ExpectContinueTimeout := 1 * Second;
  TLSClientConfig := None;
|}.

Definition sharedHTTPSTransport : Transport := {|
  Proxy := ProxyFromEnvironment;
  DialContext := {| Timeout := 30 * Second; KeepAlive := 90 * Second;
                    DualStack := true |};
  MaxIdleConns := 100;
  IdleConnTimeout := 90 * Second;
  TLSHandshakeTimeout := 10 * Second;
  ExpectContinueTimeout := 1 * Second;
  TLSClientConfig := Some {| InsecureSkipVerify := true |};
|}.

Definition sharedHTTPTransportShortTimeout : Transport := {|
  Proxy := ProxyFromEnvironment;
  DialContext := {| Timeout := 30 * Second; KeepAlive := 100 * Millisecond;
                    DualStack := true |};
  MaxIdleConns := 100;
  IdleConnTimeout := 100 * Millisecond;
  TLSHandshakeTimeout := 10 * Second;
  ExpectContinueTimeout := 1 * Second;
  TLSClientConfig := None;
|}.

Definition sharedHTTPSTransportShortTimeout : Transport := {|
  Proxy := ProxyFromEnvironment;
  DialContext := {| Timeout := 30 * Second; KeepAlive := 100 * Millisecond;
                    DualStack := true |};
  MaxIdleConns := 100;
  IdleConnTimeout := 100 * Millisecond;
  TLSHandshakeTimeout := 10 * Second;
  ExpectContinueTimeout := 1 * Second;
  TLSClientConfig := Some {| InsecureSkipVerify := true |};
|}.

(** [net.JoinHostPort]: a host containing a colon is bracketed. *)
Fixpoint hasColon (s : string) : bool :=
  match s with
  | EmptyString => false
  | String c rest => if decide (c = ":"%char) then true else hasColon rest
  end.

Definition JoinHostPort (host port : string) : string :=
  if hasColon host then "[" ++ host ++ "]:" ++ port
  else host ++ ":" ++ port.

(** [strconv.Itoa]. *)
Definition Itoa (n : Z) : string := pretty n.

Section Arangod.
Context `{K8sUtil}.

(** [apiObject] is a pointer: [None] is [nil]. *)
Definition createArangodHTTPConfigForDNSNames (ctx : Ctx)
    (apiObject : option ArangoDeployment) (dnsNames : list string)
    (shortTimeout : bool) : ConnectionConfig * option error :=
  let scheme := "http" in
  let transport := sharedHTTPTransport in
  let transport :=
    if shortTimeout then sharedHTTPTransportShortTimeout else transport in
  let '(scheme, transport) :=
    if match apiObject with
       | Some obj => IsSecure (Spec obj)
       | None => false
       end
    then
      let scheme := "https" in
      let transport := sharedHTTPSTransport in
      let transport :=
        if shortTimeout then sharedHTTPSTransportShortTimeout
        else transport in
      (scheme, transport)
    else (scheme, transport) in
  let connConfig := {|
    cc_Transport := transport;
    DontFollowRedirect := true;
    Endpoints :=
      (fun dnsName =>
         scheme ++ "://" ++ JoinHostPort dnsName (Itoa ArangoPort))
      <$> dnsNames;
  |} in
  (connConfig, None).

Definition requiredMessage : string :=
  "Authentication is required by context, but not provided in API object".

(** Result [(auth, err)]; [auth = None] is the nil authentication.  The
    secrets of [cli] are those behind [GetTokenSecret].  The agency client
    of the package takes its authentication from this same function. *)
Definition createArangodClientAuthentication (ctx : Ctx)
    (apiObject : option ArangoDeployment) :
    Prog (option Authentication * option error) :=
  let notEnabled :=
    if negb (isNil (Value ctx requireAuthenticationKey)) then
      Ret (None, Some (maskAny (Errorf requiredMessage)))
    else Ret (None, None) in
  match apiObject with
  | Some obj =>
      if IsAuthenticated (Spec obj) then
        if isNil (Value ctx skipAuthenticationKey) then
          let* got :=
            call (GetTokenSecret
                    (Authentication_GetJWTSecretName (Spec obj))) in
          match got with
          | inr err => Ret (None, Some (maskAny err))
          | inl s =>
              let* got :=
                call (CreateArangodJwtAuthorizationHeader s
                        "kube-arangodb") in
              match got with
              | inr err => Ret (None, Some (maskAny err))
              | inl jwt => Ret (Some (RawAuthentication jwt), None)
              end
          end
        else Ret (None, None)
      else notEnabled
  | None => notEnabled
  end.

Definition createArangodClientForDNSName (ctx : Ctx)
    (apiObject : option ArangoDeployment) (dnsName : string)
    (shortTimeout : bool) : Prog (Client + error) :=
  let '(connConfig, err) :=
    createArangodHTTPConfigForDNSNames ctx apiObject [dnsName]
      shortTimeout in
  match err with
  | Some e => Ret (inr (maskAny e))
  | None =>
      let* got := call (NewConnection connConfig) in
      match got with
      | inr e => Ret (inr (maskAny e))
      | inl conn =>
          let* '(auth, err) :=
            createArangodClientAuthentication ctx apiObject in
          match err with
          | Some e => Ret (inr (maskAny e))
          | None =>
              let config := {| cfg_Connection := conn;
                               cfg_Authentication := auth |} in
              let* got := call (NewClient config) in
              match got with
              | inr e => Ret (inr (maskAny e))
              | inl c => Ret (inl c)
              end
          end
      end
  end.

(** Masking of the error of a client build by its exported wrapper. *)
Definition maskedClient (p : Prog (Client + error)) : Prog (Client + error) :=
  let* got := p in
  match got with
  | inr e => Ret (inr (maskAny e))
  | inl c => Ret (inl c)
  end.

Definition CreateArangodClient (ctx : Ctx) (apiObject : ArangoDeployment)
    (role id : string) : Prog (Client + error) :=
  let dnsName := CreatePodDNSName apiObject role id in
  maskedClient
    (createArangodClientForDNSName ctx (Some apiObject) dnsName false).

Definition CreateArangodDatabaseClient (ctx : Ctx)
    (apiObject : ArangoDeployment) (shortTimeout : bool) :
    Prog (Client + error) :=
  let dnsName := CreateDatabaseClientServiceDNSName apiObject in
  maskedClient
    (createArangodClientForDNSName ctx (Some apiObject) dnsName
       shortTimeout).

Definition CreateArangodImageIDClient (ctx : Ctx)
    (deployment : ArangoDeployment) (role id : string) :
    Prog (Client + error) :=
  let dnsName := CreatePodDNSName deployment role id in
  maskedClient (createArangodClientForDNSName ctx None dnsName false).

End Arangod.

(** ** Package [backup] *)

Module Backup.

(** [ArangoBackupStatus]: state, time of the last transition, message. *)
Record ArangoBackupStatus := {
  State : string;
  Time : Z;
  Message : string;
}.

Record ArangoBackup := { Status : ArangoBackupStatus }.

Definition ArangoBackupStatePending : string := "Pending".
Definition ArangoBackupStateDownloadError : string := "DownloadError".

Definition downloadDelay : Duration := Minute.

(** [time.Time.Add] and [time.Time.Before], on nanoseconds. *)
Definition Add (t : Z) (d : Duration) : Z := t + d.
Definition Before (t u : Z) : bool := (t <? u)%Z.

Definition updateStatusFunc : Type :=
  ArangoBackupStatus -> Prog ArangoBackupStatus.

(** Modelled from the spec: [updateStatusState] is not under src.  It
    yields the update that moves a status to the given state and message
    and, when the state changes, stamps it with the current time. *)
Definition updateStatusState (state message : string) : updateStatusFunc :=
  fun status =>
    if decide (State status = state) then
      Ret {| State := state; Time := Time status; Message := message |}
    else
      let* now := call TimeNow in
      Ret {| State := state; Time := now; Message := message |}.

(** Modelled from the spec: [wrapUpdateStatus] is not under src.  It
    applies the updates in order to a copy of the backup's status and
    returns the copy with a nil error; with no update the status comes back
    unchanged. *)
Fixpoint applyUpdates (status : ArangoBackupStatus)
    (update : list updateStatusFunc) : Prog ArangoBackupStatus :=
  match update with
  | [] => Ret status
  | u :: rest => let* s := u status in applyUpdates s rest
  end.

Definition wrapUpdateStatus (backup : ArangoBackup)
    (update : list updateStatusFunc) :
    Prog (ArangoBackupStatus * option error) :=
  let* s := applyUpdates (Status backup) update in
  Ret (s, None).

(** [stateDownloadErrorHandler]; the handler argument [h] is not used. *)
Definition stateDownloadErrorHandler (backup : ArangoBackup) :
    Prog (ArangoBackupStatus * option error) :=
  let* now := call TimeNow in
  if Before (Add (Time (Status backup)) downloadDelay) now then
    wrapUpdateStatus backup
      [updateStatusState ArangoBackupStatePending ""]
  else wrapUpdateStatus backup [].

End Backup.

(** ** Package [resources]: reading the credentials back *)

(** [getJWTSecret], [getSyncJWTSecret] and [getSyncMonitoringToken]; result
    [(token, err)].  They read through the plain secrets client of the
    namespace; the debug log line written on a failed read has no effect on
    the result and is not part of the program. *)
Definition getJWTSecret (spec : DeploymentSpec) :
    Prog (string * option error) :=
  if negb (IsAuthenticated spec) then Ret ("", None)
  else
    let secretName := Authentication_GetJWTSecretName spec in
    let* got := call (GetTokenSecret secretName) in
    match got with
    | inr err => Ret ("", Some (maskAny err))
    | inl s => Ret (s, None)
    end.

Definition getSyncJWTSecret (spec : DeploymentSpec) :
    Prog (string * option error) :=
  let secretName := sync_GetJWTSecretName (Sync_Authentication spec) in
  let* got := call (GetTokenSecret secretName) in
  match got with
  | inr err => Ret ("", Some (maskAny err))
  | inl s => Ret (s, None)
  end.

Definition getSyncMonitoringToken (spec : DeploymentSpec) :
    Prog (string * option error) :=
  let secretName := Sync_Monitoring_GetTokenSecretName spec in
  let* got := call (GetTokenSecret secretName) in
  match got with
  | inr err => Ret ("", Some (maskAny err))
  | inl s => Ret (s, None)
  end.

(** The names under which [EnsureSecrets] can ensure a secret, in the order
    of its blocks. *)
Definition secretNames `{K8sUtil} (r : Resources) : list string :=
  let spec := GetSpec r in
  [ Authentication_GetJWTSecretName spec;
    Metrics_GetJWTTokenSecretName spec;
    GetCASecretName (TLS spec);
    GetKeyfolderSecretName (GetName (GetAPIObject r));
    sync_GetJWTSecretName (Sync_Authentication spec);
    Sync_Monitoring_GetTokenSecretName spec;
    GetCASecretName (Sync_TLS spec);
    GetClientCASecretName (Sync_Authentication spec) ].

(** ** Package [listers]: the namespaced getter *)

Module Lister.

(** A [cache.Indexer], as far as [Get] uses it: [GetByKey] answers with the
    item stored under the key, if one exists, and an error.  The items of
    this indexer are deployments, so the type assertion of [Get] cannot
    fail. *)
Record Indexer := {
  GetByKey : string -> option ArangoDeployment * option error;
}.

Record arangoDeploymentNamespaceLister := {
  indexer : Indexer;
  namespace : string;
}.

(** [arangoDeploymentLister.ArangoDeployments]. *)
Definition ArangoDeployments (i : Indexer) (ns : string) :
    arangoDeploymentNamespaceLister :=
  {| indexer := i; namespace := ns |}.

(** [arangoDeploymentNamespaceLister.Get]. *)
Definition Get (s : arangoDeploymentNamespaceLister) (name : string) :
    ArangoDeployment + error :=
  let '(obj, err) := GetByKey (indexer s) (namespace s ++ "/" ++ name) in
  match err with
  | Some e => inr e
  | None =>
      match obj with
      | None => inr (StatusError StatusReasonNotFound)
      | Some d => inl d
      end
  end.

(** The key under which the cache stores an object: namespace, slash,
    name. *)
Definition keyOf (d : ArangoDeployment) : string :=
  GetNamespace d ++ "/" ++ GetName d.

(** An indexer backed by a finite map from keys to deployments; it never
    fails. *)
Definition mapIndexer (m : gmap string ArangoDeployment) : Indexer :=
  {| GetByKey := fun key => (m !! key, None) |}.

(** Storing a deployment in the cache. *)
Definition store (d : ArangoDeployment) (m : gmap string ArangoDeployment) :
    gmap string ArangoDeployment :=
  <[keyOf d := d]> m.

End Lister.

(** ** Properties of every call a program can make *)

(** [allCalls P p]: every call at every node of the program satisfies [P],
    whatever the answers to the calls before it. *)
Fixpoint allCalls {A : Type} (P : Call -> Prop) (p : Prog A) : Prop :=
  match p with
  | Ret _ => True
  | Vis op k => P (Called op) /\ forall r, allCalls P (k r)
  end.

(** The owner reference a create call attaches. *)
Definition ownerOf (c : Call) : option OwnerReference :=
  match c with
  | Called (CreateTokenSecret _ _ ownerRef) => Some ownerRef
  | Called (CreateJWTFromSecret _ _ _ ownerRef) => Some ownerRef
  | Called (AppendKeyfileToKeyfolder ownerRef _ _) => Some ownerRef
  | Called (createTLSCACertificate _ _ ownerRef) => Some ownerRef
  | Called (createClientAuthCACertificate _ _ ownerRef) => Some ownerRef
  | _ => None
  end.

(** The token a call puts into a new token secret. *)
Definition tokenOf (c : Call) : option string :=
  match c with
  | Called (CreateTokenSecret _ token _) => Some token
  | _ => None
  end.

(** Lower-case hexadecimal digits. *)
Definition isHexDigit (c : ascii) : bool :=
  let n := N_of_ascii c in
  ((48 <=? n) && (n <=? 57) || (97 <=? n) && (n <=? 102))%N.

Fixpoint allHex (s : string) : bool :=
  match s with
  | EmptyString => true
  | String c rest => isHexDigit c && allHex rest
  end.

(** Whether a string contains a slash. *)
Fixpoint hasSlash (s : string) : bool :=
  match s with
  | EmptyString => false
  | String c rest => if decide (c = "/"%char) then true else hasSlash rest
  end.

(** What a call of a reconciliation pass may write.  Every create names one
    of the secrets of the specification, attaches the deployment as owner
    and, for a token secret, stores hexadecimal digits; every delete is of
    the exporter token secret, with both authentication and metrics
    enabled. *)
Definition writesOk `{K8sUtil} (r : Resources) (c : Call) : Prop :=
  match creates c with
  | Some n => In n (secretNames r)
  | None => True
  end /\
  match deletes c with
  | Some n =>
      n = Metrics_GetJWTTokenSecretName (GetSpec r) /\
      IsAuthenticated (GetSpec r) = true /\
      Metrics_IsEnabled (GetSpec r) = true
  | None => True
  end /\
  match ownerOf c with
  | Some o => o = AsOwner (GetAPIObject r)
  | None => True
  end /\
  match tokenOf c with
  | Some t => allHex t = true
  | None => True
  end.

(** ** An in-memory secret store *)

Module Mem.

(** The world of the in-memory handler: the secrets of the namespace, the
    state of the random source, the clock, the tokens signed so far (each
    with the claims and the key it was signed with) and the inspection
    counter. *)
Record World := {
  secrets : gmap string Secret;
  entropy : nat;
  clock : Z;
  issued : list (string * (value * string));
  inspections : Z;
}.

Definition setSecrets (w : World) (s : gmap string Secret) : World :=
  {| secrets := s; entropy := entropy w; clock := clock w;
     issued := issued w; inspections := inspections w |}.

(** What a JSON encoding followed by a decoding into [jwt.MapClaims] makes
    of a claim value: an array comes back as [[]interface{}], a nested
    object as [map[string]interface{}]. *)
Fixpoint jsonValue (v : value) : value :=
  match v with
  | SliceOfString l => SliceOfInterface (String_ <$> l)
  | SliceOfInterface l =>
      SliceOfInterface
        ((fix elems (l : list value) : list value :=
            match l with
            | [] => []
            | x :: l' => jsonValue x :: elems l'
            end) l)
  | MapStringInterface m | MapClaims m =>
      MapStringInterface
        ((fix entries (m : list (string * value)) : list (string * value) :=
            match m with
            | [] => []
            | (k, x) :: m' => (k, jsonValue x) :: entries m'
            end) m)
  | _ => v
  end.

Definition jsonClaims (v : value) : value :=
  match jsonValue v with
  | MapStringInterface m => MapClaims m
  | v' => v'
  end.

Fixpoint randomBytes (seed n : nat) : string :=
  match n with
  | O => EmptyString
  | S n' => String (ascii_of_nat (seed + n')) (randomBytes seed n')
  end.

(** Signing registers a fresh token string with its claims and key;
    parsing succeeds exactly on a registered token presented with the key
    it was signed with, and yields the decoded claims. *)
Definition sign (claims : value) (key : string) (w : World) :
    string * World :=
  let tok := "jwt." ++ pretty (length (issued w)) in
  (tok,
   {| secrets := secrets w; entropy := entropy w; clock := clock w;
      issued := (tok, (claims, key)) :: issued w;
      inspections := inspections w |}).

Fixpoint lookupIssued (l : list (string * (value * string)))
    (tok : string) : option (value * string) :=
  match l with
  | [] => None
  | (t, ck) :: l' => if decide (t = tok) then Some ck else lookupIssued l' tok
  end.

Definition parse (tok key : string) (w : World) : Token + error :=
  match lookupIssued (issued w) tok with
  | Some (claims, k) =>
      if decide (k = key) then inl {| Claims := jsonClaims claims |}
      else inr (Errorf "signature is invalid")
  | None => inr (Errorf "token contains an invalid number of segments")
  end.

Section Handler.
Context `{K8sUtil}.

Definition notFound : error := StatusError StatusReasonNotFound.
Definition alreadyExists : error := StatusError StatusReasonAlreadyExists.

(** The store's atomic create. *)
Definition create (s : Secret) (w : World) : option error * World :=
  match secrets w !! secret_Name s with
  | Some _ => (Some alreadyExists, w)
  | None => (None, setSecrets w (<[secret_Name s := s]> (secrets w)))
  end.

(** Modelled from the spec: [k8sutil.GetTokenSecret] is not under src.
    It reads the secret and returns its token field; a failed read and a
    missing field are errors. *)
Definition getTokenSecret (name : string) (w : World) : string + error :=
  match secrets w !! name with
  | None => inr (maskAny notFound)
  | Some s =>
      match secret_Data s !! SecretKeyToken with
      | Some tok => inl tok
      | None => inr (maskAny (Errorf "No token data found in secret"))
      end
  end.

(** Modelled from the spec: [k8sutil.CreateTokenSecret] is not under
    src.  It creates a secret holding the token in the token field, with
    the owner reference attached; the store's error is masked. *)
Definition createTokenSecret (name token : string)
    (ownerRef : OwnerReference) (w : World) : option error * World :=
  let '(err, w') :=
    create {| secret_Name := name;
              secret_Data := {[ SecretKeyToken := token ]};
              secret_OwnerReferences := [ownerRef] |} w in
  (maskAny <$> err, w').

(** Modelled from the spec: the other helpers that are not under src.
    [CreateJWTFromSecret] signs the claims with the token of the signing
    secret and stores the result as a token secret;
    [AppendKeyfileToKeyfolder] packages the key bytes into a new secret
    unless the keyfolder exists; the two CA helpers generate a
    certificate and key and create the CA secret. *)
Definition handle (R : Type) (op : Op R) (w : World) : R * World :=
  match op in Op R return R * World with
  | SecretsGet name =>
      (match secrets w !! name with
       | Some s => inl s
       | None => inr notFound
       end, w)
  | SecretsDelete name =>
      match secrets w !! name with
      | Some _ => (None, setSecrets w (delete name (secrets w)))
      | None => (Some notFound, w)
      end
  | RandRead n =>
      (randomBytes (entropy w) n,
       {| secrets := secrets w; entropy := S (entropy w);
          clock := clock w; issued := issued w;
          inspections := inspections w |})
  | CreateTokenSecret name token ownerRef =>
      createTokenSecret name token ownerRef w
  | GetTokenSecret name => (getTokenSecret name w, w)
  | CreateJWTFromSecret tokenName secretName claims ownerRef =>
      match getTokenSecret secretName w with
      | inr e => (Some (maskAny e), w)
      | inl key =>
          let '(tok, w') := sign claims key w in
          let '(err, w'') := createTokenSecret tokenName tok ownerRef w' in
          (maskAny <$> err, w'')
      end
  | AppendKeyfileToKeyfolder ownerRef name key =>
      match secrets w !! name with
      | Some _ => (None, w)
      | None =>
          let '(err, w') :=
            create {| secret_Name := name;
                      secret_Data := {[ SecretEncryptionKey := key ]};
                      secret_OwnerReferences := [ownerRef] |} w in
          (maskAny <$> err, w')
      end
  | createTLSCACertificate spec _ ownerRef =>
      let '(err, w') :=
        create {| secret_Name := GetCASecretName spec;
                  secret_Data := {[ "ca.crt" := "certificate";
                                    "ca.key" := "private key" ]};
                  secret_OwnerReferences := [ownerRef] |} w in
      (maskAny <$> err, w')
  | createClientAuthCACertificate spec _ ownerRef =>
      let '(err, w') :=
        create {| secret_Name := GetClientCASecretName spec;
                  secret_Data := {[ "ca.crt" := "certificate";
                                    "ca.key" := "private key" ]};
                  secret_OwnerReferences := [ownerRef] |} w in
      (maskAny <$> err, w')
  | JwtParse tok key => (parse tok key w, w)
  | CreateArangodJwtAuthorizationHeader jwtSecret serverID =>
      let '(tok, w') :=
        sign (MapClaims [("iss", String_ "arangodb");
                         ("server_id", String_ serverID)]) jwtSecret w in
      (inl ("bearer " ++ tok), w')
  | NewConnection config => (inl {| conn_Config := config |}, w)
  | NewClient config => (inl {| client_Config := config |}, w)
  | CounterInc _ =>
      (tt, {| secrets := secrets w; entropy := entropy w;
              clock := clock w; issued := issued w;
              inspections := inspections w + 1 |})
  | SetDuration _ _ => (tt, w)
  | TimeNow =>
      (clock w, {| secrets := secrets w; entropy := entropy w;
                   clock := clock w + 1; issued := issued w;
                   inspections := inspections w |})
  end.

End Handler.

Definition empty : World :=
  {| secrets := ∅; entropy := 0; clock := 0; issued := [];
     inspections := 0 |}.

End Mem.

(** ** Concrete inputs *)

(** The values the upstream packages give to the constants and naming
    helpers; used where a statement is evaluated on a concrete input. *)
Definition upstream : K8sUtil := {|
  SecretKeyToken := "token";
  SecretEncryptionKey := "key";
  ArangoExporterInternalEndpoint := "/_admin/metrics";
  ArangoPort := 8529;
  GetKeyfolderSecretName := fun name => name ++ "-encryption-folder";
  CreatePodDNSName := fun d role id =>
    GetName d ++ "-" ++ role ++ "-" ++ id ++ "." ++ GetName d ++ "-int."
      ++ GetNamespace d ++ ".svc";
  CreateDatabaseClientServiceDNSName := fun d =>
    GetName d ++ "." ++ GetNamespace d ++ ".svc";
|}.

(** A deployment named [depl] with the given toggles. *)
Definition exampleSpec (auth metrics secure encrypted sync : bool) :
    DeploymentSpec := {|
  IsAuthenticated := auth;
  Authentication_GetJWTSecretName := "depl-jwt";
  Metrics_IsEnabled := metrics;
  Metrics_GetJWTTokenSecretName := "depl-exporter-jwt-token";
  IsSecure := secure;
  TLS := {| GetCASecretName := "depl-ca" |};
  RocksDB_IsEncrypted := encrypted;
  RocksDB_Encryption_GetKeySecretName := "depl-keyfile";
  Sync_IsEnabled := sync;
  Sync_Authentication := {| sync_GetJWTSecretName := "depl-sync-jwt";
                            GetClientCASecretName := "depl-sync-client-ca" |};
  Sync_Monitoring_GetTokenSecretName := "depl-sync-mt";
  Sync_TLS := {| GetCASecretName := "depl-sync-ca" |};
|}.

Definition exampleDeployment (spec : DeploymentSpec) : ArangoDeployment := {|
  GetName := "depl";
  GetNamespace := "default";
  AsOwner := {| owner_Name := "depl"; owner_UID := "uid-1" |};
  Spec := spec;
|}.

Definition exampleResources (spec : DeploymentSpec) : Resources :=
  {| GetAPIObject := exampleDeployment spec; GetSpec := spec |}.

(** A store holding one secret with the given data. *)
Definition storeWith (name : string) (data : gmap string string) : Mem.World :=
  Mem.setSecrets Mem.empty
    {[ name := {| secret_Name := name; secret_Data := data;
                  secret_OwnerReferences := [] |} ]}.

(** A racing environment: every read finds nothing, and every create loses
    to another instance that created the secret in between. *)
Definition raceHandle (R : Type) (op : Op R) (w : unit) : R * unit :=
  match op in Op R return R * unit with
  | SecretsGet _ => (inr (StatusError StatusReasonNotFound), w)
  | SecretsDelete _ => (Some (StatusError StatusReasonNotFound), w)
  | RandRead n => (Mem.randomBytes 0 n, w)
  | CreateTokenSecret _ _ _ | CreateJWTFromSecret _ _ _ _
  | AppendKeyfileToKeyfolder _ _ _ | createTLSCACertificate _ _ _
  | createClientAuthCACertificate _ _ _ =>
      (Some (maskAny (StatusError StatusReasonAlreadyExists)), w)
  | GetTokenSecret _ => (inr (maskAny (StatusError StatusReasonNotFound)), w)
  | JwtParse _ _ => (inr (Errorf "token is malformed"), w)
  | CreateArangodJwtAuthorizationHeader _ _ => (inl "", w)
  | NewConnection config => (inl {| conn_Config := config |}, w)
  | NewClient config => (inl {| client_Config := config |}, w)
  | CounterInc _ => (tt, w)
  | SetDuration _ _ => (tt, w)
  | TimeNow => (0, w)
  end.

(** The in-memory store after one reconciliation pass, from the empty
    store, of a deployment with authentication and metrics enabled. *)
Definition afterFirstPass : Mem.World :=
  world (run (Mem.handle (H := upstream))
           (EnsureSecrets (H := upstream)
              (exampleResources (exampleSpec true true false false false)))
           Mem.empty).

(** A backup whose download failed at the given time, and a world whose
    clock shows the given time. *)
Definition failedDownload (t : Z) : Backup.ArangoBackup :=
  {| Backup.Status :=
       {| Backup.State := Backup.ArangoBackupStateDownloadError;
          Backup.Time := t;
          Backup.Message := "download failed" |} |}.

Definition worldAt (now : Z) : Mem.World :=
  {| Mem.secrets := ∅; Mem.entropy := 0; Mem.clock := now;
     Mem.issued := []; Mem.inspections := 0 |}.

(** A scripted environment: the secret store answers every read, token
    read, delete and create as given; parsing answers as given; everything
    else succeeds. *)
Definition scripted (get : string -> Secret + error)
    (getToken : string -> string + error) (del create : option error)
    (parsed : Token + error) (R : Type) (op : Op R) (w : unit) : R * unit :=
  match op in Op R return R * unit with
  | SecretsGet name => (get name, w)
  | SecretsDelete _ => (del, w)
  | RandRead n => (Mem.randomBytes 7 n, w)
  | CreateTokenSecret _ _ _ | CreateJWTFromSecret _ _ _ _
  | AppendKeyfileToKeyfolder _ _ _ | createTLSCACertificate _ _ _
  | createClientAuthCACertificate _ _ _ => (create, w)
  | GetTokenSecret name => (getToken name, w)
  | JwtParse _ _ => (parsed, w)
  | CreateArangodJwtAuthorizationHeader s id =>
      (inl ("bearer " ++ s ++ "." ++ id), w)
  | NewConnection config => (inl {| conn_Config := config |}, w)
  | NewClient config => (inl {| client_Config := config |}, w)
  | CounterInc _ => (tt, w)
  | SetDuration _ _ => (tt, w)
  | TimeNow => (0, w)
  end.

Definition forbidden : error := StatusError (StatusReasonOther "Forbidden").

Definition secretOf (name : string) (data : gmap string string) : Secret :=
  {| secret_Name := name; secret_Data := data; secret_OwnerReferences := [] |}.

(** ** Running programs *)

Section RunLemmas.
Context {W : Type} (handle : forall R, Op R -> W -> R * W).

Lemma run_bind {A B : Type} (p : Prog A) (f : A -> Prog B) (w : W) :
  run handle (bind p f) w =
  let o := run handle p w in
  let o' := run handle (f (result o)) (world o) in
  {| result := result o'; world := world o';
     trace := trace o ++ trace o' |}.
Proof.
  revert w; induction p as [a | R op k IH]; intros w; simpl.
  - destruct (run handle (f a) w); reflexivity.
  - destruct (handle R op w) as [x w']. rewrite IH. reflexivity.
Qed.

Lemma run_call {R : Type} (op : Op R) (w : W) :
  run handle (call op) w =
  {| result := fst (handle R op w); world := snd (handle R op w);
     trace := [Called op] |}.
Proof. simpl. destruct (handle R op w); reflexivity. Qed.

End RunLemmas.

(** Steps of a run whose next answer is given by a hypothesis. *)
Ltac step H :=
  cbn [run bind call andThen]; rewrite H; cbn [run bind call andThen].

(** Runs of sequenced programs, expressed by the runs of their parts. *)
Ltac run_norm :=
  repeat (first [ rewrite run_bind | rewrite run_call
                | progress cbn [result world trace run fmap option_fmap
                                  option_map fst snd] ]).

Ltac trace_eq := f_equal; rewrite ?app_nil_r, <- ?app_assoc; reflexivity.

(** ** Token secrets are created once and never rotated *)

Section TokenSecret.
Context `{K8sUtil}.
Variable r : Resources.

(** Against every store, a found secret ends the ensure after the read. *)
Lemma ensureTokenSecret_found {W : Type}
    (handle : forall R, Op R -> W -> R * W) (w w' : W)
    (secretName : string) (s : Secret) :
  handle _ (SecretsGet secretName) w = (inl s, w') ->
  run handle (ensureTokenSecret r secretName) w =
  {| result := None; world := w'; trace := [Called (SecretsGet secretName)] |}.
Proof. intros Hget. unfold ensureTokenSecret. step Hget. reflexivity. Qed.

(** On the in-memory store the ensure always succeeds, and afterwards the
    secret exists. *)
Lemma ensureTokenSecret_mem (w : Mem.World) (secretName : string) :
  let o := run Mem.handle (ensureTokenSecret r secretName) w in
  result o = None /\ is_Some (Mem.secrets (world o) !! secretName).
Proof.
  unfold ensureTokenSecret. cbn [run bind call Mem.handle].
  destruct (Mem.secrets w !! secretName) as [s|] eqn:Hs; cbn.
  - rewrite Hs. eauto.
  - unfold Mem.createTokenSecret, Mem.create; cbn. rewrite Hs. cbn.
    rewrite lookup_insert_eq. eauto.
Qed.

(** The store after the ensure: unchanged if the secret existed, else
    extended by a token secret owned by the deployment. *)
Lemma ensureTokenSecret_mem_state (w : Mem.World) (secretName : string) :
  let o := run Mem.handle (ensureTokenSecret r secretName) w in
  result o = None /\
  match Mem.secrets w !! secretName with
  | Some _ => Mem.secrets (world o) = Mem.secrets w
  | None =>
      exists token,
        Mem.secrets (world o) =
        <[secretName :=
            {| secret_Name := secretName;
               secret_Data := {[ SecretKeyToken := token ]};
               secret_OwnerReferences := [AsOwner (GetAPIObject r)] |}]>
          (Mem.secrets w)
  end.
Proof.
  unfold ensureTokenSecret. cbn [run bind call Mem.handle].
  destruct (Mem.secrets w !! secretName) as [s|] eqn:Hs; cbn.
  - auto.
  - unfold Mem.createTokenSecret, Mem.create; cbn. rewrite Hs. cbn.
    eauto.
Qed.

(** C7.  Ensuring a token credential is idempotent.  Against every store
    in which the named secret is found, [ensureTokenSecret] returns nil
    after the single read: it makes no create, update or delete call, and
    the in-memory store is left as it was.  On the in-memory store (no
    interference), running the ensure a second time succeeds, makes only
    the read and leaves the store exactly as the first run left it. *)
Theorem ensureTokenSecret_idempotent (secretName : string) :
  (forall (W : Type) (handle : forall R, Op R -> W -> R * W) (w w' : W)
          (s : Secret),
      handle _ (SecretsGet secretName) w = (inl s, w') ->
      let o := run handle (ensureTokenSecret r secretName) w in
      result o = None /\ world o = w' /\
      trace o = [Called (SecretsGet secretName)]) /\
  (forall (w : Mem.World) (s : Secret),
      Mem.secrets w !! secretName = Some s ->
      let o := run Mem.handle (ensureTokenSecret r secretName) w in
      result o = None /\ world o = w /\
      trace o = [Called (SecretsGet secretName)]) /\
  (forall w : Mem.World,
      let once := run Mem.handle (ensureTokenSecret r secretName) w in
      let twice :=
        run Mem.handle (ensureTokenSecret r secretName) (world once) in
      result once = None /\ result twice = None /\
      world twice = world once /\
      trace twice = [Called (SecretsGet secretName)]).
Proof.
  split; [| split].
  - intros W handle w w' s Hget o. subst o.
    rewrite (ensureTokenSecret_found handle w w' secretName s Hget).
    auto.
  - intros w s Hs o. subst o.
    rewrite (ensureTokenSecret_found Mem.handle w w secretName s).
    + auto.
    + cbn. rewrite Hs. reflexivity.
  - intros w once twice.
    destruct (ensureTokenSecret_mem w secretName) as [Hres [s Hs]].
    fold once in Hres, Hs. subst twice. clearbody once.
    rewrite (ensureTokenSecret_found Mem.handle (world once) (world once)
               secretName s).
    + auto.
    + cbn. rewrite Hs. reflexivity.
Qed.

End TokenSecret.

(** An existing token secret is left alone: the store after the ensure is
    the store before it. *)
Lemma ensureTokenSecret_idempotent_witness :
  let w := storeWith "depl-jwt" {[ "token" := "0a1b2c" ]} in
  let r := exampleResources (exampleSpec true false false false false) in
  is_Some (Mem.secrets w !! "depl-jwt") /\
  world (run (Mem.handle (H := upstream))
           (ensureTokenSecret r "depl-jwt") w) = w.
Proof.
  intros w r. split.
  - vm_compute. eauto.
  - eapply (proj1 (proj2 (ensureTokenSecret_idempotent (H := upstream) r
                            "depl-jwt"))).
    vm_compute. reflexivity.
Defined.

(** ** Which secrets [EnsureSecrets] ensures *)

Section EnsureSecretsSelection.
Context `{K8sUtil}.
Variable r : Resources.

Local Abbreviation spec := (GetSpec r).
Local Abbreviation deploymentName := (GetName (GetAPIObject r)).

(** A block that cannot return early leaves the result of what follows. *)
Lemma run_andThen_ok {W : Type} (handle : forall R, Op R -> W -> R * W)
    (p : Prog (option error)) (w : W) :
  run handle (p ;;; Ret None) w = run handle p w.
Proof.
  unfold andThen. rewrite run_bind. cbn.
  destruct (run handle p w) as [[e|] w' t]; cbn; rewrite app_nil_r;
    reflexivity.
Qed.

Lemma run_ok_andThen {W : Type} (handle : forall R, Op R -> W -> R * W)
    (p : Prog (option error)) (w : W) :
  run handle (Ret None ;;; p) w = run handle p w.
Proof. cbn. destruct (run handle p w); reflexivity. Qed.

(** C9.  With authentication, TLS, storage encryption and sync all
    disabled, [EnsureSecrets] returns nil and its only calls are the
    reading of the clock and the deferred duration metric: no call reaches
    the secret store, and the in-memory store keeps its secrets. *)
Theorem EnsureSecrets_nothing_enabled :
  IsAuthenticated spec = false ->
  IsSecure spec = false ->
  RocksDB_IsEncrypted spec = false ->
  Sync_IsEnabled spec = false ->
  (forall (W : Type) (handle : forall R, Op R -> W -> R * W) (w : W),
      let o := run handle (EnsureSecrets r) w in
      result o = None /\
      Forall (fun c => isSecretOp c = false) (trace o) /\
      trace o =
        [Called TimeNow;
         Called (SetDuration deploymentName (fst (handle _ TimeNow w)))]) /\
  (forall w : Mem.World,
      let o := run Mem.handle (EnsureSecrets r) w in
      result o = None /\ Mem.secrets (world o) = Mem.secrets w).
Proof.
  intros Hauth Hsec Henc Hsync.
  split.
  - intros W handle w o. subst o. unfold EnsureSecrets.
    rewrite Hauth, Hsec, Henc, Hsync. cbn.
    destruct (handle Z TimeNow w) as [start w1]. cbn.
    destruct (handle unit _ w1) as [[] w2]. cbn.
    repeat split. repeat constructor.
  - intros w o. subst o. unfold EnsureSecrets.
    rewrite Hauth, Hsec, Henc, Hsync. cbn. auto.
Qed.

Lemma EnsureSecrets_only_token {W : Type}
    (handle : forall R, Op R -> W -> R * W) (w : W) :
  IsAuthenticated spec = true -> Metrics_IsEnabled spec = false ->
  IsSecure spec = false -> RocksDB_IsEncrypted spec = false ->
  Sync_IsEnabled spec = false ->
  run handle (EnsureSecrets r) w = run handle (ensureOnlyToken r) w.
Proof.
  intros Hauth Hmet Hsec Henc Hsync.
  unfold EnsureSecrets, ensureOnlyToken.
  rewrite Hauth, Hmet, Hsec, Henc, Hsync.
  unfold andThen, masked. run_norm.
  destruct (run handle (ensureTokenSecret _ _) _) as [[e|] w' t];
    run_norm; trace_eq.
Qed.

Lemma EnsureSecrets_token_and_exporter {W : Type}
    (handle : forall R, Op R -> W -> R * W) (w : W) :
  IsAuthenticated spec = true -> Metrics_IsEnabled spec = true ->
  IsSecure spec = false -> RocksDB_IsEncrypted spec = false ->
  Sync_IsEnabled spec = false ->
  run handle (EnsureSecrets r) w = run handle (ensureTokenAndExporter r) w.
Proof.
  intros Hauth Hmet Hsec Henc Hsync.
  unfold EnsureSecrets, ensureTokenAndExporter.
  rewrite Hauth, Hmet, Hsec, Henc, Hsync.
  unfold andThen, masked. run_norm.
  destruct (run handle (ensureTokenSecret _ _) _) as [[e|] w' t];
    run_norm; [trace_eq |].
  destruct (run handle (ensureExporterTokenSecret _ _ _) _) as [[e|] w'' t'];
    run_norm; trace_eq.
Qed.

(** On the in-memory store, the exporter token is created next to an
    existing signing secret when it is absent. *)
Lemma ensureExporterTokenSecret_mem_absent (w : Mem.World)
    (tokenSecretName secretSecretName : string) (s : Secret) (key : string) :
  Mem.secrets w !! tokenSecretName = None ->
  Mem.secrets w !! secretSecretName = Some s ->
  secret_Data s !! SecretKeyToken = Some key ->
  let o := run Mem.handle
             (ensureExporterTokenSecret r tokenSecretName secretSecretName)
             w in
  result o = None /\
  exists token,
    Mem.secrets (world o) =
    <[tokenSecretName :=
        {| secret_Name := tokenSecretName;
           secret_Data := {[ SecretKeyToken := token ]};
           secret_OwnerReferences := [AsOwner (GetAPIObject r)] |}]>
      (Mem.secrets w).
Proof.
  intros Habsent Hkey Htok.
  unfold ensureExporterTokenSecret, ensureExporterTokenSecretCreateRequired.
  cbn [run bind call Mem.handle]. rewrite Habsent. cbn.
  unfold Mem.getTokenSecret. rewrite Hkey, Htok. cbn.
  unfold Mem.createTokenSecret, Mem.create. cbn. rewrite Habsent. cbn.
  eauto.
Qed.

(** C4, as amended.  With authentication enabled and TLS, storage
    encryption and sync disabled: if metrics is disabled, [EnsureSecrets]
    behaves against every store as the ensure of the primary token secret
    alone, and on the in-memory store it succeeds and changes the store at
    that one name at most; if metrics is enabled, it behaves as the ensure
    of the primary token followed by the ensure of the exporter token, and
    from a store holding neither it succeeds and adds exactly these two. *)
Theorem EnsureSecrets_auth_only :
  IsAuthenticated spec = true ->
  IsSecure spec = false ->
  RocksDB_IsEncrypted spec = false ->
  Sync_IsEnabled spec = false ->
  (Metrics_IsEnabled spec = false ->
   (forall (W : Type) (handle : forall R, Op R -> W -> R * W) (w : W),
       run handle (EnsureSecrets r) w = run handle (ensureOnlyToken r) w) /\
   (forall w : Mem.World,
       let o := run Mem.handle (EnsureSecrets r) w in
       result o = None /\
       exists s,
         Mem.secrets (world o) =
         <[Authentication_GetJWTSecretName spec := s]> (Mem.secrets w))) /\
  (Metrics_IsEnabled spec = true ->
   (forall (W : Type) (handle : forall R, Op R -> W -> R * W) (w : W),
       run handle (EnsureSecrets r) w
       = run handle (ensureTokenAndExporter r) w) /\
   (forall w : Mem.World,
       Mem.secrets w !! Authentication_GetJWTSecretName spec = None ->
       Mem.secrets w !! Metrics_GetJWTTokenSecretName spec = None ->
       Authentication_GetJWTSecretName spec
         <> Metrics_GetJWTTokenSecretName spec ->
       let o := run Mem.handle (EnsureSecrets r) w in
       result o = None /\
       exists s s',
         Mem.secrets (world o) =
         <[Metrics_GetJWTTokenSecretName spec := s']>
           (<[Authentication_GetJWTSecretName spec := s]> (Mem.secrets w)))).
Proof.
  intros Hauth Hsec Henc Hsync. split; intros Hmet; split.
  - intros W handle w. apply EnsureSecrets_only_token; assumption.
  - intros w o. subst o. rewrite EnsureSecrets_only_token by assumption.
    unfold ensureOnlyToken, masked. run_norm.
    cbn [Mem.handle fst snd].
    match goal with
    | |- context [run Mem.handle (ensureTokenSecret r ?n) ?w0] =>
        pose proof (ensureTokenSecret_mem_state r w0 n) as [Hres Hst];
        destruct (run Mem.handle (ensureTokenSecret r n) w0) as [res w1 t]
    end.
    cbn in Hres, Hst. subst res. cbn. split; [reflexivity |].
    destruct (Mem.secrets w !! Authentication_GetJWTSecretName spec)
      as [s|] eqn:Hs.
    + exists s. rewrite Hst. symmetry. apply insert_id. exact Hs.
    + destruct Hst as [token ->]. eauto.
  - intros W handle w. apply EnsureSecrets_token_and_exporter; assumption.
  - intros w Hjwt Hexp Hne o. subst o.
    rewrite EnsureSecrets_token_and_exporter by assumption.
    unfold ensureTokenAndExporter, masked, andThen. run_norm.
    cbn [Mem.handle fst snd].
    match goal with
    | |- context [run Mem.handle (ensureTokenSecret r ?n) ?w0] =>
        pose proof (ensureTokenSecret_mem_state r w0 n) as [Hres Hst];
        destruct (run Mem.handle (ensureTokenSecret r n) w0) as [res w1 t]
    end.
    cbn in Hres, Hst. subst res. rewrite Hjwt in Hst.
    destruct Hst as [token Hst]. run_norm.
    match goal with
    | |- context [run Mem.handle (ensureExporterTokenSecret r ?n ?k) ?w0] =>
        edestruct (ensureExporterTokenSecret_mem_absent w0 n k)
          as [Hres' [token' Hst']];
        [ | | | destruct (run Mem.handle (ensureExporterTokenSecret r n k) w0)
                  as [res' w2 t'] ]
    end.
    + cbn. rewrite Hst. rewrite lookup_insert_ne by congruence. exact Hexp.
    + cbn. rewrite Hst. apply lookup_insert_eq.
    + cbn. apply lookup_singleton_eq.
    + cbn in Hres', Hst'. subst res'. run_norm. cbn.
      split; [reflexivity |]. rewrite Hst', Hst. eauto.
Qed.

End EnsureSecretsSelection.

(** With every toggle off, a pass over a store holding an unrelated secret
    succeeds and leaves it untouched. *)
Lemma EnsureSecrets_nothing_enabled_witness :
  let r := exampleResources (exampleSpec false false false false false) in
  let w := storeWith "unrelated" {[ "token" := "0a1b2c" ]} in
  IsAuthenticated (GetSpec r) = false /\
  Mem.secrets (world (run (Mem.handle (H := upstream))
                        (EnsureSecrets (H := upstream) r) w))
  = Mem.secrets w.
Proof.
  intros r w. split; [reflexivity |].
  apply (proj2 (EnsureSecrets_nothing_enabled (H := upstream) r
                  eq_refl eq_refl eq_refl eq_refl)).
Defined.

(** With authentication enabled and TLS, metrics and sync disabled, but
    storage encryption enabled, a pass over a store holding the keyfile
    secret ensures two secrets: the primary token and the keyfolder. *)
Lemma EnsureSecrets_auth_only_counterexample :
  let r := exampleResources (exampleSpec true false false true false) in
  let w := storeWith "depl-keyfile" {[ "key" := "0123456789abcdef" ]} in
  let o := run (Mem.handle (H := upstream))
             (EnsureSecrets (H := upstream) r) w in
  (IsAuthenticated (GetSpec r) = true /\ IsSecure (GetSpec r) = false /\
   Metrics_IsEnabled (GetSpec r) = false /\ Sync_IsEnabled (GetSpec r) = false)
  /\ result o = None
  /\ omap creates (trace o) = ["depl-jwt"; "depl-encryption-folder"]
  /\ dom (Mem.secrets (world o)) ∖ dom (Mem.secrets w)
     = {[ "depl-jwt"; "depl-encryption-folder" ]}.
Proof.
  cbv zeta. split; [repeat split |]. split; [vm_compute; reflexivity |].
  split; [vm_compute; reflexivity |].
  vm_compute. reflexivity.
Qed.

(** From the empty store: one secret with metrics disabled, two with
    metrics enabled. *)
Lemma EnsureSecrets_auth_only_witness :
  let r := exampleResources (exampleSpec true false false false false) in
  let r' := exampleResources (exampleSpec true true false false false) in
  let o := run (Mem.handle (H := upstream))
             (EnsureSecrets (H := upstream) r) Mem.empty in
  let o' := run (Mem.handle (H := upstream))
              (EnsureSecrets (H := upstream) r') Mem.empty in
  (IsAuthenticated (GetSpec r) = true /\ IsSecure (GetSpec r) = false /\
   RocksDB_IsEncrypted (GetSpec r) = false /\
   Sync_IsEnabled (GetSpec r) = false /\
   Metrics_IsEnabled (GetSpec r) = false /\
   Metrics_IsEnabled (GetSpec r') = true) /\
  (result o = None /\
   exists s, Mem.secrets (world o) = <["depl-jwt" := s]> ∅) /\
  (result o' = None /\
   exists s s', Mem.secrets (world o') =
                <["depl-exporter-jwt-token" := s']> (<["depl-jwt" := s]> ∅)).
Proof.
  intros r r' o o'. split; [repeat split |]. split.
  - apply (proj2 (proj1 (EnsureSecrets_auth_only (H := upstream) r
                           eq_refl eq_refl eq_refl eq_refl) eq_refl)
             Mem.empty).
  - apply (proj2 (proj2 (EnsureSecrets_auth_only (H := upstream) r'
                           eq_refl eq_refl eq_refl eq_refl) eq_refl)
             Mem.empty); [reflexivity | reflexivity | discriminate].
Defined.

(** ** Losing the create race *)

Section CreateRace.
Context `{K8sUtil}.
Variable r : Resources.
Context {W : Type} (handle : forall R, Op R -> W -> R * W).

Local Abbreviation owner := (AsOwner (GetAPIObject r)).
Local Abbreviation deploymentName := (GetName (GetAPIObject r)).

Lemma ensureTokenSecret_absent (w w1 w2 w3 : W) (secretName : string)
    (e0 : error) (tokenData : string) (cerr : option error) :
  handle _ (SecretsGet secretName) w = (inr e0, w1) ->
  IsNotFound (Some e0) = true ->
  handle _ (RandRead 32) w1 = (tokenData, w2) ->
  handle _ (CreateTokenSecret secretName (EncodeToString tokenData) owner) w2
    = (cerr, w3) ->
  result (run handle (ensureTokenSecret r secretName) w)
  = if IsAlreadyExists cerr then None else maskAny <$> cerr.
Proof.
  intros Hget Hnf Hrand Hcreate. unfold ensureTokenSecret.
  step Hget. rewrite Hnf. step Hrand. step Hcreate.
  destruct (IsAlreadyExists cerr); [reflexivity |].
  destruct cerr; reflexivity.
Qed.

Lemma ensureExporterTokenSecret_absent (w w1 w2 : W)
    (tokenSecretName secretSecretName : string) (e0 : error)
    (cerr : option error) :
  handle _ (SecretsGet tokenSecretName) w = (inr e0, w1) ->
  IsNotFound (Some e0) = true ->
  handle _ (CreateJWTFromSecret tokenSecretName secretSecretName
              exporterTokenClaims owner) w1 = (cerr, w2) ->
  result (run handle
            (ensureExporterTokenSecret r tokenSecretName secretSecretName) w)
  = if IsAlreadyExists cerr then None else maskAny <$> cerr.
Proof.
  intros Hget Hnf Hcreate.
  unfold ensureExporterTokenSecret, ensureExporterTokenSecretCreateRequired.
  step Hget. rewrite Hnf. step Hcreate.
  destruct (IsAlreadyExists cerr); [reflexivity |].
  destruct cerr; reflexivity.
Qed.

Lemma ensureTLSCACertificateSecret_absent (w w1 w2 : W) (spec : TLSSpec)
    (e0 : error) (cerr : option error) :
  handle _ (SecretsGet (GetCASecretName spec)) w = (inr e0, w1) ->
  IsNotFound (Some e0) = true ->
  handle _ (createTLSCACertificate spec deploymentName owner) w1
    = (cerr, w2) ->
  result (run handle (ensureTLSCACertificateSecret r spec) w)
  = if IsAlreadyExists cerr then None else maskAny <$> cerr.
Proof.
  intros Hget Hnf Hcreate. unfold ensureTLSCACertificateSecret.
  step Hget. rewrite Hnf. step Hcreate.
  destruct (IsAlreadyExists cerr); [reflexivity |].
  destruct cerr; reflexivity.
Qed.

Lemma ensureClientAuthCACertificateSecret_absent (w w1 w2 : W)
    (spec : SyncAuthenticationSpec) (e0 : error) (cerr : option error) :
  handle _ (SecretsGet (GetClientCASecretName spec)) w = (inr e0, w1) ->
  IsNotFound (Some e0) = true ->
  handle _ (createClientAuthCACertificate spec deploymentName owner) w1
    = (cerr, w2) ->
  result (run handle (ensureClientAuthCACertificateSecret r spec) w)
  = if IsAlreadyExists cerr then None else maskAny <$> cerr.
Proof.
  intros Hget Hnf Hcreate. unfold ensureClientAuthCACertificateSecret.
  step Hget. rewrite Hnf. step Hcreate.
  destruct (IsAlreadyExists cerr); [reflexivity |].
  destruct cerr; reflexivity.
Qed.

(** C2.  On each of the four create paths (token secret, exporter token,
    server TLS CA, client-auth CA): when the read reports the secret as not
    found and the create then returns [cerr], the ensure returns nil if
    [cerr] is an AlreadyExists error, and otherwise returns the masked
    create error (nil only when the create itself succeeded). *)
Theorem ensure_create_already_exists (w w1 : W) (e0 : error) :
  IsNotFound (Some e0) = true ->
  (forall secretName tokenData w2 cerr w3,
      handle _ (SecretsGet secretName) w = (inr e0, w1) ->
      handle _ (RandRead 32) w1 = (tokenData, w2) ->
      handle _ (CreateTokenSecret secretName (EncodeToString tokenData) owner)
        w2 = (cerr, w3) ->
      let res := result (run handle (ensureTokenSecret r secretName) w) in
      (IsAlreadyExists cerr = true -> res = None) /\
      (forall e, cerr = Some e -> IsAlreadyExists cerr = false ->
                 res = Some (maskAny e))) /\
  (forall tokenSecretName secretSecretName cerr w2,
      handle _ (SecretsGet tokenSecretName) w = (inr e0, w1) ->
      handle _ (CreateJWTFromSecret tokenSecretName secretSecretName
                  exporterTokenClaims owner) w1 = (cerr, w2) ->
      let res :=
        result (run handle (ensureExporterTokenSecret r tokenSecretName
                              secretSecretName) w) in
      (IsAlreadyExists cerr = true -> res = None) /\
      (forall e, cerr = Some e -> IsAlreadyExists cerr = false ->
                 res = Some (maskAny e))) /\
  (forall spec cerr w2,
      handle _ (SecretsGet (GetCASecretName spec)) w = (inr e0, w1) ->
      handle _ (createTLSCACertificate spec deploymentName owner) w1
        = (cerr, w2) ->
      let res := result (run handle (ensureTLSCACertificateSecret r spec) w) in
      (IsAlreadyExists cerr = true -> res = None) /\
      (forall e, cerr = Some e -> IsAlreadyExists cerr = false ->
                 res = Some (maskAny e))) /\
  (forall spec cerr w2,
      handle _ (SecretsGet (GetClientCASecretName spec)) w = (inr e0, w1) ->
      handle _ (createClientAuthCACertificate spec deploymentName owner) w1
        = (cerr, w2) ->
      let res :=
        result (run handle (ensureClientAuthCACertificateSecret r spec) w) in
      (IsAlreadyExists cerr = true -> res = None) /\
      (forall e, cerr = Some e -> IsAlreadyExists cerr = false ->
                 res = Some (maskAny e))).
Proof.
  intros Hnf.
  assert (Hsplit : forall (res cerr : option error),
             res = (if IsAlreadyExists cerr then None else maskAny <$> cerr) ->
             (IsAlreadyExists cerr = true -> res = None) /\
             (forall e, cerr = Some e -> IsAlreadyExists cerr = false ->
                        res = Some (maskAny e))).
  { intros res cerr ->. split.
    - intros ->. reflexivity.
    - intros e -> ->. reflexivity. }
  split; [| split; [| split]]; intros; apply Hsplit;
    eauto using ensureTokenSecret_absent, ensureExporterTokenSecret_absent,
      ensureTLSCACertificateSecret_absent,
      ensureClientAuthCACertificateSecret_absent.
Qed.

End CreateRace.

(** In the racing environment every one of the four ensures returns nil. *)
Lemma ensure_create_already_exists_witness :
  let r := exampleResources (exampleSpec true true true false true) in
  let spec := GetSpec r in
  IsNotFound (Some (StatusError StatusReasonNotFound)) = true /\
  result (run raceHandle (ensureTokenSecret r "depl-jwt") tt) = None /\
  result (run raceHandle
            (ensureExporterTokenSecret (H := upstream) r
               "depl-exporter-jwt-token" "depl-jwt") tt) = None /\
  result (run raceHandle
            (ensureTLSCACertificateSecret r (TLS spec)) tt)
    = None /\
  result (run raceHandle
            (ensureClientAuthCACertificateSecret r
               (Sync_Authentication spec)) tt) = None.
Proof.
  intros r spec.
  pose proof (ensure_create_already_exists (H := upstream) r raceHandle tt tt
                (StatusError StatusReasonNotFound) eq_refl)
    as (Htok & Hexp & Htls & Hca).
  split; [reflexivity |].
  split; [eapply Htok; reflexivity |].
  split; [eapply Hexp; reflexivity |].
  split; [eapply Htls; reflexivity | eapply Hca; reflexivity].
Defined.

(** ** The keyfolder needs real key material *)

Section Keyfolder.
Context `{K8sUtil}.
Variable r : Resources.

(** C3, as amended.  Against every store: when the read of the source
    keyfile secret fails, or the secret has no data, or it lacks the
    encryption-key field, [ensureEncryptionKeyfolderSecret] makes no call
    after that read (so it creates nothing) and returns an error.  For empty
    data and for a missing field the error is the fresh "Missing key in
    secret" error, which is not a store error; for a failed read (a missing
    secret included) it is the store's own error wrapped with context, still
    a store error and still recognised as NotFound when the read said so.
    On the in-memory store the world after the failure is the world
    before. *)
Theorem ensureEncryptionKeyfolderSecret_invalid_source
    (keyfileSecretName secretName : string) :
  (forall (W : Type) (handle : forall R, Op R -> W -> R * W) (w w1 : W)
          (got : Secret + error),
      handle _ (SecretsGet keyfileSecretName) w = (got, w1) ->
      match got with
      | inl keyfile =>
          size (secret_Data keyfile) = 0%nat \/
          secret_Data keyfile !! SecretEncryptionKey = None
      | inr _ => True
      end ->
      let o := run handle
                 (ensureEncryptionKeyfolderSecret r keyfileSecretName
                    secretName) w in
      trace o = [Called (SecretsGet keyfileSecretName)] /\
      world o = w1 /\
      match got with
      | inl _ =>
          result o = Some (Errorf "Missing key in secret") /\
          IsStoreError (Errorf "Missing key in secret") = false
      | inr e =>
          result o = Some (Wrapf e "Unable to find original secret") /\
          Cause (Wrapf e "Unable to find original secret") = Cause e /\
          IsNotFound (result o) = IsNotFound (Some e)
      end) /\
  (forall w : Mem.World,
      match Mem.secrets w !! keyfileSecretName with
      | Some keyfile =>
          size (secret_Data keyfile) = 0%nat \/
          secret_Data keyfile !! SecretEncryptionKey = None
      | None => True
      end ->
      let o := run Mem.handle
                 (ensureEncryptionKeyfolderSecret r keyfileSecretName
                    secretName) w in
      is_Some (result o) /\ world o = w).
Proof.
  split.
  - intros W handle w w1 got Hget Hbad o. subst o.
    unfold ensureEncryptionKeyfolderSecret. step Hget.
    destruct got as [keyfile | e].
    + destruct Hbad as [Hempty | Hmissing].
      * rewrite Hempty. cbn. auto.
      * destruct (Nat.eqb _ _); [cbn; auto |].
        rewrite Hmissing. cbn. auto.
    + cbn. auto.
  - intros w Hbad o. subst o.
    unfold ensureEncryptionKeyfolderSecret. cbn [run bind call Mem.handle].
    destruct (Mem.secrets w !! keyfileSecretName) as [keyfile|]; cbn.
    + destruct Hbad as [Hempty | Hmissing].
      * rewrite Hempty. cbn. eauto.
      * destruct (Nat.eqb _ _); [cbn; eauto |].
        rewrite Hmissing. cbn. eauto.
    + eauto.
Qed.

End Keyfolder.

(** A missing source secret: the error returned is the store's NotFound
    error in a wrapper, recognised as such, not a validation error. *)
Lemma ensureEncryptionKeyfolderSecret_missing_counterexample :
  let r := exampleResources (exampleSpec true false false true false) in
  let o := run (Mem.handle (H := upstream))
             (ensureEncryptionKeyfolderSecret (H := upstream) r
                "depl-keyfile" "depl-encryption-folder") Mem.empty in
  Mem.secrets Mem.empty !! "depl-keyfile" = None /\
  exists e, result o = Some e /\
            IsStoreError e = true /\ IsNotFound (Some e) = true.
Proof.
  cbv zeta. split; [reflexivity |].
  exists (Wrapf (StatusError StatusReasonNotFound)
            "Unable to find original secret").
  repeat split.
Qed.

(** A source secret with empty data: the ensure fails with the validation
    error and the store is as before. *)
Lemma ensureEncryptionKeyfolderSecret_invalid_source_witness :
  let r := exampleResources (exampleSpec true false false true false) in
  let w := storeWith "depl-keyfile" ∅ in
  let o := run (Mem.handle (H := upstream))
             (ensureEncryptionKeyfolderSecret (H := upstream) r
                "depl-keyfile" "depl-encryption-folder") w in
  (exists keyfile, Mem.secrets w !! "depl-keyfile" = Some keyfile /\
                   size (secret_Data keyfile) = 0%nat) /\
  trace o = [Called (SecretsGet "depl-keyfile")] /\
  world o = w /\
  result o = Some (Errorf "Missing key in secret").
Proof.
  intros r w o.
  split; [eexists; split; [vm_compute; reflexivity | reflexivity] |].
  pose proof (proj1 (ensureEncryptionKeyfolderSecret_invalid_source
                       (H := upstream) r "depl-keyfile"
                       "depl-encryption-folder")
                Mem.World (Mem.handle (H := upstream)) w w
                (inl {| secret_Name := "depl-keyfile"; secret_Data := ∅;
                        secret_OwnerReferences := [] |})) as Hthm.
  destruct Hthm as (Htrace & Hworld & Hres & _).
  - vm_compute. reflexivity.
  - left. reflexivity.
  - auto.
Defined.

(** ** The exporter token and its claims *)

Section ExporterClaims.
Context `{K8sUtil}.
Variable r : Resources.

(** The decoded claims of a token are a [jwt.MapClaims]; the desired set is
    a [map[string]interface{}].  The comparison never finds the two equal,
    whatever the decoded entries. *)
Lemma DeepEqual_MapClaims_exporterTokenClaims (m : list (string * value)) :
  DeepEqual (MapClaims m) exporterTokenClaims = false.
Proof. reflexivity. Qed.

(** The entries themselves would compare equal: the decoded form of the
    desired set is equal to itself, and unequal once a path is removed. *)
Lemma DeepEqual_decoded_claims :
  DeepEqual (Mem.jsonClaims exporterTokenClaims)
    (Mem.jsonClaims exporterTokenClaims) = true /\
  DeepEqual
    (MapClaims
       [ ("iss", String_ "arangodb");
         ("server_id", String_ "exporter");
         ("allowed_paths",
          SliceOfInterface [ String_ "/_admin/statistics";
                             String_ "/_admin/statistics-description" ]) ])
    (Mem.jsonClaims exporterTokenClaims) = false.
Proof.
  split; cbn; repeat (case_decide; try discriminate; try congruence);
    rewrite ?bool_decide_eq_true_2 by reflexivity; reflexivity.
Qed.

(** Against every store: whenever the validator finds the token secret and
    returns no error, it asks for recreation. *)
Lemma ensureExporterTokenSecretCreateRequired_existing {W : Type}
    (handle : forall R, Op R -> W -> R * W) (w : W)
    (tokenSecretName secretSecretName : string) (recreate : bool) :
  result (run handle
            (ensureExporterTokenSecretCreateRequired tokenSecretName
               secretSecretName) w) = (recreate, true, None) ->
  recreate = true.
Proof.
  unfold ensureExporterTokenSecretCreateRequired. cbn [run bind call].
  destruct (handle _ (SecretsGet tokenSecretName) w) as [[secret | e] w1];
    cbn [run bind call result].
  - destruct (secret_Data secret !! SecretKeyToken) as [data|];
      cbn [run bind call result]; [| congruence].
    destruct (handle _ (GetTokenSecret secretSecretName) w1)
      as [[key | e] w2]; cbn [run bind call result]; [| congruence].
    destruct (handle _ (JwtParse data key) w2) as [[token | e] w3];
      cbn [run bind call result]; [| congruence].
    destruct (Claims token); cbn; congruence.
  - destruct (IsNotFound (Some e)); cbn; congruence.
Qed.

(** The second half of the drift property holds in the code: a stored token
    that verifies and decodes to any claim map, in particular one whose
    allowed-path list lacks an entry, is reported for recreation. *)
Lemma ensureExporterTokenSecretCreateRequired_drift {W : Type}
    (handle : forall R, Op R -> W -> R * W) (w w1 w2 w3 : W)
    (tokenSecretName secretSecretName data key : string) (secret : Secret)
    (m : list (string * value)) :
  handle _ (SecretsGet tokenSecretName) w = (inl secret, w1) ->
  secret_Data secret !! SecretKeyToken = Some data ->
  handle _ (GetTokenSecret secretSecretName) w1 = (inl key, w2) ->
  handle _ (JwtParse data key) w2 = (inl {| Claims := MapClaims m |}, w3) ->
  result (run handle
            (ensureExporterTokenSecretCreateRequired tokenSecretName
               secretSecretName) w) = (true, true, None).
Proof.
  intros Hget Hdata Hkey Hparse.
  unfold ensureExporterTokenSecretCreateRequired.
  step Hget. rewrite Hdata. step Hkey. step Hparse. reflexivity.
Qed.

End ExporterClaims.

(** C1.  The code at the failing input.  After one pass the store holds an
    exporter token that the operator itself signed with the current primary
    key over the desired claims: it parses under that key and its decoded
    claims are those of the desired set.  Yet the validator reports
    (recreate, exists) = (true, true), and [ensureExporterTokenSecret]
    deletes the secret and creates it again. *)
Theorem exporter_token_recreated_when_valid :
  let r := exampleResources (exampleSpec true true false false false) in
  let w := afterFirstPass in
  let o := run (Mem.handle (H := upstream))
             (ensureExporterTokenSecret (H := upstream) r
                "depl-exporter-jwt-token" "depl-jwt") w in
  (exists token key,
      Mem.getTokenSecret (H := upstream) "depl-exporter-jwt-token" w
        = inl token /\
      Mem.getTokenSecret (H := upstream) "depl-jwt" w = inl key /\
      Mem.parse token key w
        = inl {| Claims :=
                   Mem.jsonClaims (exporterTokenClaims (H := upstream)) |}) /\
  result (run (Mem.handle (H := upstream))
            (ensureExporterTokenSecretCreateRequired (H := upstream)
               "depl-exporter-jwt-token" "depl-jwt") w)
    = (true, true, None) /\
  result o = None /\
  omap deletes (trace o) = ["depl-exporter-jwt-token"] /\
  omap creates (trace o) = ["depl-exporter-jwt-token"].
Proof.
  cbv zeta. split.
  - eexists _, _. repeat split; vm_compute; reflexivity.
  - repeat split; vm_compute; reflexivity.
Qed.

(** ** Authentication selection of the client factory *)

Lemma Value_WithSkipAuthentication (ctx : Ctx) :
  Value (WithSkipAuthentication ctx) skipAuthenticationKey = Bool_ true /\
  Value (WithSkipAuthentication ctx) requireAuthenticationKey
  = Value ctx requireAuthenticationKey.
Proof. split; reflexivity. Qed.

Lemma Value_WithRequireAuthentication (ctx : Ctx) :
  Value (WithRequireAuthentication ctx) requireAuthenticationKey = Bool_ true /\
  Value (WithRequireAuthentication ctx) skipAuthenticationKey
  = Value ctx skipAuthenticationKey.
Proof. split; reflexivity. Qed.

Lemma isNil_false (v : value) : v <> Nil -> isNil v = false.
Proof. destruct v; intros Hv; try reflexivity. congruence. Qed.

Section ClientAuthentication.
Context {W : Type} (handle : forall R, Op R -> W -> R * W).

(** C5.  The authentication selection of every client build.  With
    authentication disabled in the profile (or no API object): no
    credential and no error, unless the context carries the
    require-authentication marker, in which case the build fails with an
    error; no secret is read either way.  With authentication enabled: a
    context carrying the skip-authentication marker yields no credential and
    no error without reading any secret; otherwise the primary auth token
    secret is read, a failed read is returned as the error, and the
    credential is the bearer header minted from the token for the identity
    "kube-arangodb". *)
Theorem createArangodClientAuthentication_selection (ctx : Ctx)
    (apiObject : option ArangoDeployment) (w : W) :
  let enabled :=
    match apiObject with
    | Some obj => IsAuthenticated (Spec obj)
    | None => false
    end in
  let o := run handle (createArangodClientAuthentication ctx apiObject) w in
  (enabled = false -> Value ctx requireAuthenticationKey = Nil ->
   result o = (None, None) /\ trace o = []) /\
  (enabled = false -> Value ctx requireAuthenticationKey <> Nil ->
   (exists e, result o = (None, Some e)) /\ trace o = []) /\
  (enabled = true -> Value ctx skipAuthenticationKey <> Nil ->
   result o = (None, None) /\ trace o = []) /\
  (enabled = true -> Value ctx skipAuthenticationKey = Nil ->
   forall obj, apiObject = Some obj ->
     let secretName := Authentication_GetJWTSecretName (Spec obj) in
     (forall e w1,
         handle _ (GetTokenSecret secretName) w = (inr e, w1) ->
         result o = (None, Some (maskAny e)) /\
         trace o = [Called (GetTokenSecret secretName)]) /\
     (forall s w1 jwt w2,
         handle _ (GetTokenSecret secretName) w = (inl s, w1) ->
         handle _ (CreateArangodJwtAuthorizationHeader s "kube-arangodb") w1
           = (inl jwt, w2) ->
         result o = (Some (RawAuthentication jwt), None)) /\
     (forall s w1 e w2,
         handle _ (GetTokenSecret secretName) w = (inl s, w1) ->
         handle _ (CreateArangodJwtAuthorizationHeader s "kube-arangodb") w1
           = (inr e, w2) ->
         result o = (None, Some (maskAny e)))).
Proof.
  intros enabled o. subst o enabled.
  unfold createArangodClientAuthentication.
  split; [| split; [| split]].
  - intros Hoff Hreq. rewrite Hreq.
    destruct apiObject as [obj|]; cbn in Hoff |- *;
      [rewrite Hoff |]; cbn; auto.
  - intros Hoff Hreq. rewrite (isNil_false _ Hreq).
    destruct apiObject as [obj|]; cbn in Hoff |- *;
      [rewrite Hoff |]; cbn; eauto.
  - intros Hon Hskip. destruct apiObject as [obj|]; [| discriminate].
    cbn in Hon. rewrite Hon, (isNil_false _ Hskip). cbn. auto.
  - intros Hon Hskip obj ->. cbn in Hon. rewrite Hon, Hskip. cbn [isNil].
    split; [| split].
    + intros e w1 Hget. step Hget. auto.
    + intros s w1 jwt w2 Hget Hmint. step Hget. step Hmint. reflexivity.
    + intros s w1 e w2 Hget Hmint. step Hget. step Hmint. reflexivity.
Qed.

(** C10.  The bare-DNS client is built with no API object.  Without the
    require-authentication marker the authentication step makes no call and
    yields no credential and no error, the build reads no secret, and the
    client is the one the driver builds from the connection with a nil
    authentication.  With the marker the build returns an error whatever the
    store and the driver answer, and still reads no secret. *)
Theorem CreateArangodImageIDClient_authentication `{K8sUtil} (ctx : Ctx)
    (deployment : ArangoDeployment) (role id : string) (w : W) :
  let build := CreateArangodImageIDClient ctx deployment role id in
  let connConfig :=
    fst (createArangodHTTPConfigForDNSNames ctx None
           [CreatePodDNSName deployment role id] false) in
  (Value ctx requireAuthenticationKey = Nil ->
   run handle (createArangodClientAuthentication ctx None) w
   = {| result := (None, None); world := w; trace := [] |} /\
   Forall (fun c => isSecretOp c = false) (trace (run handle build w)) /\
   (forall conn w1 c w2,
       handle _ (NewConnection connConfig) w = (inl conn, w1) ->
       handle _ (NewClient {| cfg_Connection := conn;
                              cfg_Authentication := None |}) w1
         = (inl c, w2) ->
       result (run handle build w) = inl c)) /\
  (Value ctx requireAuthenticationKey <> Nil ->
   (exists e, result (run handle (createArangodClientAuthentication ctx None)
                        w) = (None, Some e)) /\
   (exists e, result (run handle build w) = inr e) /\
   Forall (fun c => isSecretOp c = false) (trace (run handle build w))).
Proof.
  intros build connConfig. subst build connConfig.
  unfold CreateArangodImageIDClient, maskedClient,
    createArangodClientForDNSName, createArangodClientAuthentication.
  cbn [createArangodHTTPConfigForDNSNames fst snd].
  split.
  - intros Hreq. rewrite Hreq. cbn [isNil negb].
    split; [reflexivity |]. split.
    + cbn [run bind call].
      destruct (handle _ (NewConnection _) w) as [[conn | e] w1];
        cbn [run bind call trace]; [| repeat constructor].
      destruct (handle _ (NewClient _) w1) as [[c | e] w2];
        cbn [run bind call trace]; repeat constructor.
    + intros conn w1 c w2 Hconn Hclient.
      step Hconn. step Hclient. reflexivity.
  - intros Hreq. rewrite (isNil_false _ Hreq). cbn [negb].
    split; [cbn; eauto |].
    cbn [run bind call].
    destruct (handle _ (NewConnection _) w) as [[conn | e] w1];
      cbn [run bind call trace result]; split; eauto; repeat constructor.
Qed.

End ClientAuthentication.

(** Authentication enabled and no marker: the credential is minted from the
    stored primary token.  Authentication disabled and the require marker:
    an error. *)
Lemma createArangodClientAuthentication_selection_witness :
  let w := storeWith "depl-jwt" {[ "token" := "0a1b2c" ]} in
  let on := exampleDeployment (exampleSpec true false false false false) in
  let off := exampleDeployment (exampleSpec false false false false false) in
  (IsAuthenticated (Spec on) = true /\
   Value Background skipAuthenticationKey = Nil /\
   IsAuthenticated (Spec off) = false /\
   Value (WithRequireAuthentication Background) requireAuthenticationKey
     <> Nil) /\
  result (run (Mem.handle (H := upstream))
            (createArangodClientAuthentication Background (Some on)) w)
    = (Some (RawAuthentication "bearer jwt.0"), None) /\
  exists e,
    result (run (Mem.handle (H := upstream))
              (createArangodClientAuthentication
                 (WithRequireAuthentication Background) (Some off)) w)
    = (None, Some e).
Proof.
  intros w on off.
  split; [repeat split; discriminate |]. split.
  - eapply (proj1 (proj2
             (proj2 (proj2 (proj2
                (createArangodClientAuthentication_selection
                   (Mem.handle (H := upstream)) Background (Some on) w)))
                eq_refl eq_refl on eq_refl)));
      vm_compute; reflexivity.
  - apply (proj1 (proj2 (createArangodClientAuthentication_selection
                           (Mem.handle (H := upstream))
                           (WithRequireAuthentication Background)
                           (Some off) w))
             eq_refl).
    discriminate.
Defined.

(** The bare-DNS client: built without credential when nothing is
    required, refused when authentication is required. *)
Lemma CreateArangodImageIDClient_authentication_witness :
  let w := storeWith "depl-jwt" {[ "token" := "0a1b2c" ]} in
  let d := exampleDeployment (exampleSpec true false false false false) in
  (Value Background requireAuthenticationKey = Nil /\
   Value (WithRequireAuthentication Background) requireAuthenticationKey
     <> Nil) /\
  run (Mem.handle (H := upstream))
    (createArangodClientAuthentication Background None) w
  = {| result := (None, None); world := w; trace := [] |} /\
  exists e,
    result (run (Mem.handle (H := upstream))
              (CreateArangodImageIDClient (H := upstream)
                 (WithRequireAuthentication Background) d "id" "image")
              w) = inr e.
Proof.
  intros w d. split; [split; [reflexivity | discriminate] |]. split.
  - apply (proj1 (CreateArangodImageIDClient_authentication
                    (Mem.handle (H := upstream)) (H := upstream)
                    Background d "id" "image" w) eq_refl).
  - apply (proj2 (CreateArangodImageIDClient_authentication
                    (Mem.handle (H := upstream)) (H := upstream)
                    (WithRequireAuthentication Background) d "id" "image" w)).
    discriminate.
Defined.

(** ** The shared transports *)

Section Transports.
Context `{K8sUtil}.

(** C8, as amended.  Every connection configuration takes its transport
    from the four shared transports, chosen by two booleans: whether the API
    object is present and secure, and whether a short timeout is asked for.
    The four are pairwise distinct; the secure ones, and only they, carry a
    TLS client configuration.  Every pool dials with a 30 second timeout;
    the keep-alive and idle-connection timeouts are 90 seconds in the normal
    pools and 100 milliseconds in the short-timeout pools. *)
Theorem createArangodHTTPConfigForDNSNames_transport (ctx : Ctx)
    (apiObject : option ArangoDeployment) (dnsNames : list string)
    (shortTimeout : bool) :
  let secure :=
    match apiObject with
    | Some obj => IsSecure (Spec obj)
    | None => false
    end in
  let config :=
    createArangodHTTPConfigForDNSNames ctx apiObject dnsNames shortTimeout in
  let transport := cc_Transport (fst config) in
  snd config = None /\
  transport =
    (if secure then
       if shortTimeout then sharedHTTPSTransportShortTimeout
       else sharedHTTPSTransport
     else
       if shortTimeout then sharedHTTPTransportShortTimeout
       else sharedHTTPTransport) /\
  NoDup [sharedHTTPTransport; sharedHTTPSTransport;
         sharedHTTPTransportShortTimeout; sharedHTTPSTransportShortTimeout] /\
  (is_Some (TLSClientConfig transport) <-> secure = true) /\
  Timeout (DialContext transport) = 30 * Second /\
  KeepAlive (DialContext transport)
    = (if shortTimeout then 100 * Millisecond else 90 * Second) /\
  IdleConnTimeout transport
    = (if shortTimeout then 100 * Millisecond else 90 * Second).
Proof.
  intros secure config transport. subst transport config.
  unfold createArangodHTTPConfigForDNSNames. fold secure.
  split; [destruct secure; reflexivity |].
  split; [destruct secure, shortTimeout; reflexivity |].
  split.
  { repeat (apply NoDup_cons; split;
            [rewrite ?not_elem_of_cons; repeat split;
             try apply not_elem_of_nil; discriminate |]).
    apply NoDup_nil. constructor. }
  split.
  { destruct secure, shortTimeout; cbn; split;
      first [reflexivity | discriminate | intros [? ?]; discriminate
            | eauto]. }
  destruct secure, shortTimeout; repeat split; reflexivity.
Qed.

End Transports.

(** The short-timeout pools dial with the same 30 second timeout as the
    normal ones, and the normal pools keep idle connections for 90 seconds:
    the timeouts are not "30 seconds for the normal pools and 100
    milliseconds for the short-timeout pools". *)
Lemma shared_transport_timeouts_counterexample :
  ~ (forall secure shortTimeout : bool,
        let apiObject :=
          exampleDeployment (exampleSpec true false secure false false) in
        let transport :=
          cc_Transport
            (fst (createArangodHTTPConfigForDNSNames (H := upstream)
                    Background (Some apiObject) ["depl.default.svc"]
                    shortTimeout)) in
        Timeout (DialContext transport)
          = (if shortTimeout then 100 * Millisecond else 30 * Second) /\
        IdleConnTimeout transport
          = (if shortTimeout then 100 * Millisecond else 30 * Second)).
Proof.
  intros Hclaim. destruct (Hclaim false true) as [Hdial _].
  vm_compute in Hdial. discriminate Hdial.
Qed.

(** ** The download-error cool-down *)

Section DownloadError.
Context {W : Type} (handle : forall R, Op R -> W -> R * W).

(** C6.  For a backup in state DownloadError whose last transition was at
    time T, when the handler reads the clock as [now]: if [now] is at most
    T plus the 60 second delay, it returns the backup's status unchanged and
    a nil error; if [now] is later than that, it returns a nil error and a
    Pending status whose transition time is the time read at the update and
    whose message is empty. *)
Theorem stateDownloadErrorHandler_cooldown (backup : Backup.ArangoBackup)
    (w w1 : W) (now : Z) :
  Backup.State (Backup.Status backup) = Backup.ArangoBackupStateDownloadError ->
  handle _ TimeNow w = (now, w1) ->
  let T := Backup.Time (Backup.Status backup) in
  let o := run handle (Backup.stateDownloadErrorHandler backup) w in
  Backup.downloadDelay = 60 * Second /\
  (now <= T + 60 * Second ->
   result o = (Backup.Status backup, None) /\
   Backup.State (fst (result o)) = Backup.ArangoBackupStateDownloadError /\
   Backup.Time (fst (result o)) = T) /\
  (T + 60 * Second < now ->
   forall now' w2,
     handle _ TimeNow w1 = (now', w2) ->
     result o =
     ({| Backup.State := Backup.ArangoBackupStatePending;
         Backup.Time := now';
         Backup.Message := "" |}, None)).
Proof.
  intros Hstate Hnow T o. subst T o.
  split; [reflexivity |].
  unfold Backup.stateDownloadErrorHandler, Backup.Before, Backup.Add.
  change Backup.downloadDelay with (60 * Second).
  split.
  - intros Hle. step Hnow.
    destruct (Z.ltb_spec (Backup.Time (Backup.Status backup) + 60 * Second)
                now) as [Hlt | _]; [lia |].
    cbn. auto.
  - intros Hlt now' w2 Hnow'. step Hnow.
    destruct (Z.ltb_spec (Backup.Time (Backup.Status backup) + 60 * Second)
                now) as [_ | Hge]; [| lia].
    unfold Backup.wrapUpdateStatus, Backup.applyUpdates,
      Backup.updateStatusState.
    rewrite Hstate.
    destruct (decide (Backup.ArangoBackupStateDownloadError
                      = Backup.ArangoBackupStatePending)) as [Heq | _];
      [discriminate Heq |].
    step Hnow'. reflexivity.
Qed.

End DownloadError.

(** A download that failed at T = 1000 s: retried at T + 30 s the status is
    unchanged; retried at T + 61 s it is Pending, stamped with the time of
    the update. *)
Lemma stateDownloadErrorHandler_cooldown_witness :
  let T := 1000 * Second in
  let backup := failedDownload T in
  (Backup.State (Backup.Status backup) = Backup.ArangoBackupStateDownloadError
   /\ T + 30 * Second <= T + 60 * Second
   /\ T + 60 * Second < T + 61 * Second) /\
  result (run (Mem.handle (H := upstream))
            (Backup.stateDownloadErrorHandler backup)
            (worldAt (T + 30 * Second)))
    = (Backup.Status backup, None) /\
  result (run (Mem.handle (H := upstream))
            (Backup.stateDownloadErrorHandler backup)
            (worldAt (T + 61 * Second)))
    = ({| Backup.State := Backup.ArangoBackupStatePending;
          Backup.Time := T + 61 * Second + 1;
          Backup.Message := "" |}, None).
Proof.
  intros T backup.
  split; [split; [reflexivity | split; [discriminate | reflexivity]] |].
  split.
  - eapply (proj1 (proj2 (stateDownloadErrorHandler_cooldown
                            (Mem.handle (H := upstream)) backup
                            (worldAt (T + 30 * Second)) _
                            (T + 30 * Second) eq_refl eq_refl))).
    discriminate.
  - eapply (proj2 (proj2 (stateDownloadErrorHandler_cooldown
                            (Mem.handle (H := upstream)) backup
                            (worldAt (T + 61 * Second)) _
                            (T + 61 * Second) eq_refl eq_refl))).
    + reflexivity.
    + reflexivity.
Defined.

(** ** Further properties: calls a program can make *)

Lemma allCalls_impl {A : Type} (P Q : Call -> Prop) (p : Prog A) :
  (forall c, P c -> Q c) -> allCalls P p -> allCalls Q p.
Proof.
  intros HPQ. induction p as [a | R op k IH]; cbn; [auto |].
  intros [Hop Hk]. split; auto.
Qed.

Lemma allCalls_bind {A B : Type} (P : Call -> Prop) (p : Prog A)
    (f : A -> Prog B) :
  allCalls P p -> (forall a, allCalls P (f a)) -> allCalls P (bind p f).
Proof.
  intros Hp Hf. induction p as [a | R op k IH]; cbn; [apply Hf |].
  destruct Hp as [Hop Hk]. split; auto.
Qed.

Lemma allCalls_call {R : Type} (P : Call -> Prop) (op : Op R) :
  P (Called op) -> allCalls P (call op).
Proof. intros Hop. cbn. auto. Qed.

Lemma allCalls_masked (P : Call -> Prop) (p : Prog (option error)) :
  allCalls P p -> allCalls P (masked p).
Proof.
  intros Hp. unfold masked. apply allCalls_bind; [exact Hp |].
  intros a. exact I.
Qed.

Lemma allCalls_andThen (P : Call -> Prop) (p q : Prog (option error)) :
  allCalls P p -> allCalls P q -> allCalls P (p ;;; q).
Proof.
  intros Hp Hq. unfold andThen. apply allCalls_bind; [exact Hp |].
  intros [e|]; [exact I | exact Hq].
Qed.

(** What holds of every call of a program holds of every call of every
    run. *)
Lemma allCalls_run {A W : Type} (P : Call -> Prop) (p : Prog A)
    (handle : forall R, Op R -> W -> R * W) (w : W) :
  allCalls P p -> Forall P (trace (run handle p w)).
Proof.
  revert w. induction p as [a | R op k IH]; intros w Hp; cbn.
  - constructor.
  - destruct Hp as [Hop Hk]. destruct (handle R op w) as [x w']. cbn.
    constructor; auto.
Qed.

(** Case analysis over every answer a program branches on. *)
Ltac all_calls :=
  repeat (cbn [allCalls bind call andThen masked creates deletes ownerOf
                 tokenOf isSecretOp];
          first [ exact I | reflexivity | split | intros ?
                | match goal with
                  | |- context [match ?x with _ => _ end] => destruct x
                  end ]).

(** ** Further properties: the token format *)

Lemma hexDigit_isHexDigit (n : N) : isHexDigit (hexDigit n) = true.
Proof.
  unfold hexDigit. generalize (N.to_nat n) as k. intros k.
  do 16 (destruct k as [|k]; [reflexivity |]). reflexivity.
Qed.

Lemma EncodeToString_length (src : string) :
  String.length (EncodeToString src) = (2 * String.length src)%nat.
Proof. induction src as [|c rest IH]; cbn; [reflexivity | lia]. Qed.

Lemma EncodeToString_allHex (src : string) :
  allHex (EncodeToString src) = true.
Proof.
  induction src as [|c rest IH]; cbn; [reflexivity |].
  rewrite !hexDigit_isHexDigit, IH. reflexivity.
Qed.

Lemma hexDigit_inj (m n : N) :
  (m < 16)%N -> (n < 16)%N -> hexDigit m = hexDigit n -> m = n.
Proof.
  intros Hm Hn Heq.
  assert (Hcases : (forall k : N, k < 16 ->
            k = 0 \/ k = 1 \/ k = 2 \/ k = 3 \/ k = 4 \/ k = 5 \/ k = 6 \/
            k = 7 \/ k = 8 \/ k = 9 \/ k = 10 \/ k = 11 \/ k = 12 \/
            k = 13 \/ k = 14 \/ k = 15)%N) by (intros k Hk; lia).
  destruct (Hcases m Hm) as [->|[->|[->|[->|[->|[->|[->|[->|[->|[->|[->|
                            [->|[->|[->|[->| ->]]]]]]]]]]]]]]];
    destruct (Hcases n Hn) as [->|[->|[->|[->|[->|[->|[->|[->|[->|[->|[->|
                              [->|[->|[->|[->| ->]]]]]]]]]]]]]]];
    first [reflexivity | vm_compute in Heq; discriminate Heq].
Qed.

(** X2.  [EncodeToString] loses nothing: different byte strings have
    different encodings. *)
Theorem EncodeToString_inj (a b : string) :
  EncodeToString a = EncodeToString b -> a = b.
Proof.
  revert b. induction a as [|c a IH]; intros [|d b] Heq; cbn in Heq;
    try discriminate Heq; [reflexivity |].
  injection Heq as Hhi Hlo Hrest.
  apply hexDigit_inj in Hhi;
    [| apply N.Div0.div_lt_upper_bound; pose proof (N_ascii_bounded c); lia
     | apply N.Div0.div_lt_upper_bound; pose proof (N_ascii_bounded d); lia].
  apply hexDigit_inj in Hlo; [| apply N.mod_lt; lia | apply N.mod_lt; lia].
  f_equal; [| apply IH; exact Hrest].
  rewrite <- (ascii_N_embedding c), <- (ascii_N_embedding d). f_equal.
  rewrite (N.div_mod (N_of_ascii c) 16), (N.div_mod (N_of_ascii d) 16) by lia.
  rewrite Hhi, Hlo. reflexivity.
Qed.

Lemma EncodeToString_inj_witness :
  EncodeToString "ab" = EncodeToString "ab" /\ "ab" = "ab".
Proof.
  split; [reflexivity |].
  apply (EncodeToString_inj "ab" "ab"). reflexivity.
Defined.

(** X1.  When the secret is not found and the random source fills the 32
    byte buffer, [ensureTokenSecret] makes exactly three calls: the read,
    the random read, and the create of a secret of that name, owned by the
    deployment, whose token is 64 lower-case hexadecimal digits. *)
Theorem ensureTokenSecret_token_format {W : Type}
    (handle : forall R, Op R -> W -> R * W) (r : Resources) (w w1 w2 : W)
    (secretName tokenData : string) (e0 : error) :
  handle _ (SecretsGet secretName) w = (inr e0, w1) ->
  IsNotFound (Some e0) = true ->
  handle _ (RandRead 32) w1 = (tokenData, w2) ->
  String.length tokenData = 32%nat ->
  exists token,
    trace (run handle (ensureTokenSecret r secretName) w)
    = [Called (SecretsGet secretName); Called (RandRead 32);
       Called (CreateTokenSecret secretName token (AsOwner (GetAPIObject r)))]
    /\ String.length token = 64%nat /\ allHex token = true.
Proof.
  intros Hget Hnf Hrand Hlen. exists (EncodeToString tokenData).
  split; [| split].
  - unfold ensureTokenSecret. step Hget. rewrite Hnf. step Hrand.
    destruct (handle _ (CreateTokenSecret _ _ _) w2) as [cerr w3].
    cbn [run bind call trace].
    destruct (IsAlreadyExists cerr); [reflexivity |].
    destruct cerr; reflexivity.
  - rewrite EncodeToString_length, Hlen. reflexivity.
  - apply EncodeToString_allHex.
Qed.

Lemma ensureTokenSecret_token_format_witness :
  let r := exampleResources (exampleSpec true false false false false) in
  (Mem.handle (H := upstream) _ (SecretsGet "depl-jwt") Mem.empty
     = (inr Mem.notFound, Mem.empty) /\
   String.length (Mem.randomBytes 0 32) = 32%nat) /\
  exists token,
    trace (run (Mem.handle (H := upstream)) (ensureTokenSecret r "depl-jwt")
             Mem.empty)
    = [Called (SecretsGet "depl-jwt"); Called (RandRead 32);
       Called (CreateTokenSecret "depl-jwt" token (AsOwner (GetAPIObject r)))]
    /\ String.length token = 64%nat /\ allHex token = true.
Proof.
  intros r. split; [split; reflexivity |].
  eapply (ensureTokenSecret_token_format (Mem.handle (H := upstream)) r
            Mem.empty Mem.empty _ "depl-jwt" (Mem.randomBytes 0 32)
            Mem.notFound);
    reflexivity.
Defined.

(** ** Further properties: what a reconciliation pass can write *)

Section PassWrites.
Context `{K8sUtil}.
Variable r : Resources.

Local Abbreviation spec := (GetSpec r).

Ltac writes_ok :=
  unfold writesOk; all_calls; cbn [In secretNames];
  auto 12 using EncodeToString_allHex.

Lemma ensureTokenSecret_writes (secretName : string) :
  In secretName (secretNames r) ->
  allCalls (writesOk r) (ensureTokenSecret r secretName).
Proof. intros Hin. unfold ensureTokenSecret. writes_ok. Qed.

Lemma ensureTLSCACertificateSecret_writes (tls : TLSSpec) :
  In (GetCASecretName tls) (secretNames r) ->
  allCalls (writesOk r) (ensureTLSCACertificateSecret r tls).
Proof. intros Hin. unfold ensureTLSCACertificateSecret. writes_ok. Qed.

Lemma ensureClientAuthCACertificateSecret_writes :
  allCalls (writesOk r)
    (ensureClientAuthCACertificateSecret r (Sync_Authentication spec)).
Proof. unfold ensureClientAuthCACertificateSecret. writes_ok. Qed.

Lemma ensureEncryptionKeyfolderSecret_writes (keyfileSecretName : string) :
  allCalls (writesOk r)
    (ensureEncryptionKeyfolderSecret r keyfileSecretName
       (GetKeyfolderSecretName (GetName (GetAPIObject r)))).
Proof. unfold ensureEncryptionKeyfolderSecret. writes_ok. Qed.

Lemma ensureExporterTokenSecret_writes :
  IsAuthenticated spec = true -> Metrics_IsEnabled spec = true ->
  allCalls (writesOk r)
    (ensureExporterTokenSecret r (Metrics_GetJWTTokenSecretName spec)
       (Authentication_GetJWTSecretName spec)).
Proof.
  intros Hauth Hmet.
  unfold ensureExporterTokenSecret, ensureExporterTokenSecretCreateRequired.
  writes_ok.
Qed.

Ltac call_ok := apply allCalls_call; unfold writesOk; cbn; auto.

Lemma EnsureSecrets_writes : allCalls (writesOk r) (EnsureSecrets r).
Proof.
  unfold EnsureSecrets.
  apply allCalls_bind; [call_ok |]. intros start.
  apply allCalls_bind;
    [| intros err; apply allCalls_bind;
       [call_ok | intros; exact I]].
  repeat apply allCalls_andThen.
  - destruct (IsAuthenticated spec) eqn:Hauth; [| exact I].
    apply allCalls_bind; [call_ok |]. intros _.
    apply allCalls_andThen.
    + apply allCalls_masked, ensureTokenSecret_writes. cbn; auto.
    + destruct (Metrics_IsEnabled spec) eqn:Hmet; [| exact I].
      apply allCalls_masked, ensureExporterTokenSecret_writes; auto.
  - destruct (IsSecure spec); [| exact I].
    apply allCalls_bind; [call_ok |]. intros _.
    apply allCalls_masked, ensureTLSCACertificateSecret_writes. cbn; auto.
  - destruct (RocksDB_IsEncrypted spec); [| exact I].
    apply allCalls_masked, ensureEncryptionKeyfolderSecret_writes.
  - destruct (Sync_IsEnabled spec); [| exact I].
    repeat apply allCalls_andThen;
      (apply allCalls_bind; [call_ok |]; intros _;
       apply allCalls_masked).
    + apply ensureTokenSecret_writes. cbn; auto 10.
    + apply ensureTokenSecret_writes. cbn; auto 10.
    + apply ensureTLSCACertificateSecret_writes. cbn; auto 10.
    + apply ensureClientAuthCACertificateSecret_writes.
Qed.

End PassWrites.

Section PassInvariants.
Context `{K8sUtil}.
Variable r : Resources.
Context {W : Type} (handle : forall R, Op R -> W -> R * W).


(** X4.  A reconciliation pass never deletes a secret other than the
    exporter token secret, and deletes that one only when both
    authentication and metrics are enabled: the primary token, the CA
    secrets, the keyfile and the keyfolder are never deleted. *)
Theorem EnsureSecrets_deletes_only_exporter (w : W) :
  Forall (fun c =>
            match deletes c with
            | Some n =>
                n = Metrics_GetJWTTokenSecretName (GetSpec r) /\
                IsAuthenticated (GetSpec r) = true /\
                Metrics_IsEnabled (GetSpec r) = true
            | None => True
            end)
    (trace (run handle (EnsureSecrets r) w)).
Proof.
  apply allCalls_run.
  apply (allCalls_impl (writesOk r)); [| apply EnsureSecrets_writes].
  intros c (_ & Hdel & _). exact Hdel.
Qed.


(** X6.  The deferred duration metric: on every path of [EnsureSecrets],
    early returns included, the first call reads the clock and the last
    call records the duration for the deployment with that start time. *)
Theorem EnsureSecrets_deferred_duration (w : W) :
  exists t,
    trace (run handle (EnsureSecrets r) w)
    = Called TimeNow :: t ++
      [Called (SetDuration (GetName (GetAPIObject r))
                 (fst (handle _ TimeNow w)))].
Proof.
  unfold EnsureSecrets. rewrite run_bind. cbn [run call].
  destruct (handle _ TimeNow w) as [start w1]. cbn [result world trace fst].
  rewrite run_bind.
  match goal with
  | |- context [run handle ?body w1] =>
      destruct (run handle body w1) as [err w2 t]
  end.
  cbn [result world trace run bind call].
  destruct (handle _ (SetDuration _ start) w2) as [[] w3].
  cbn [result world trace app]. exists t. reflexivity.
Qed.

(** X7.  A failed read of the primary token secret ends the pass: with
    authentication enabled and a read error other than NotFound, the pass
    returns that error (masked twice, cause kept) and, whatever the other
    toggles, touches no other secret; the duration is still recorded. *)
Theorem EnsureSecrets_stops_at_first_failure (w w1 w2 w3 : W) (start : Z)
    (e : error) :
  IsAuthenticated (GetSpec r) = true ->
  handle _ TimeNow w = (start, w1) ->
  handle _ (CounterInc (GetName (GetAPIObject r))) w1 = (tt, w2) ->
  handle _ (SecretsGet (Authentication_GetJWTSecretName (GetSpec r))) w2
    = (inr e, w3) ->
  IsNotFound (Some e) = false ->
  let o := run handle (EnsureSecrets r) w in
  result o = Some (maskAny (maskAny e)) /\
  (Cause <$> result o) = Some (Cause e) /\
  trace o =
    [Called TimeNow;
     Called (CounterInc (GetName (GetAPIObject r)));
     Called (SecretsGet (Authentication_GetJWTSecretName (GetSpec r)));
     Called (SetDuration (GetName (GetAPIObject r)) start)].
Proof.
  intros Hauth Hnow Hinc Hget Hnf o.
  assert (Hrun : o =
            {| result := Some (maskAny (maskAny e));
               world := snd (handle _ (SetDuration (GetName (GetAPIObject r))
                                         start) w3);
               trace :=
                 [Called TimeNow;
                  Called (CounterInc (GetName (GetAPIObject r)));
                  Called (SecretsGet
                            (Authentication_GetJWTSecretName (GetSpec r)));
                  Called (SetDuration (GetName (GetAPIObject r)) start)] |}).
  { subst o. unfold EnsureSecrets. rewrite Hauth.
    unfold andThen at 1 2 3 4. unfold masked at 1. unfold ensureTokenSecret.
    step Hnow. step Hinc. step Hget. rewrite Hnf.
    cbn [run bind call fmap option_fmap option_map].
    destruct (handle _ (SetDuration _ start) w3) as [[] w4].
    reflexivity. }
  rewrite Hrun. cbn. auto.
Qed.

End PassInvariants.

(** A pass whose every read is refused by the store. *)
Lemma EnsureSecrets_stops_at_first_failure_witness :
  let r := exampleResources (exampleSpec true true true true true) in
  let handle :=
    scripted (fun _ => inr forbidden) (fun _ => inr forbidden) None None
      (inr forbidden) in
  (IsAuthenticated (GetSpec r) = true /\
   IsNotFound (Some forbidden) = false) /\
  result (run handle (EnsureSecrets (H := upstream) r) tt)
  = Some (maskAny (maskAny forbidden)).
Proof.
  intros r handle. split; [split; reflexivity |].
  eapply (EnsureSecrets_stops_at_first_failure (H := upstream) r handle
            tt tt tt tt 0 forbidden);
    reflexivity.
Defined.

(** ** Further properties: failed reads and the exporter token *)

Section ReadFailures.
Context `{K8sUtil}.
Variable r : Resources.
Context {W : Type} (handle : forall R, Op R -> W -> R * W).

(** X8.  A read that fails with anything but NotFound is fatal for each of
    the ensure operations: the masked read error is returned and no further
    call is made, so nothing is created or deleted. *)
Theorem ensure_read_failure (w w1 : W) (e : error) :
  IsNotFound (Some e) = false ->
  (forall secretName,
      handle _ (SecretsGet secretName) w = (inr e, w1) ->
      run handle (ensureTokenSecret r secretName) w
      = {| result := Some (maskAny e); world := w1;
           trace := [Called (SecretsGet secretName)] |}) /\
  (forall tokenSecretName secretSecretName,
      handle _ (SecretsGet tokenSecretName) w = (inr e, w1) ->
      run handle
        (ensureExporterTokenSecret r tokenSecretName secretSecretName) w
      = {| result := Some (maskAny e); world := w1;
           trace := [Called (SecretsGet tokenSecretName)] |}) /\
  (forall tls,
      handle _ (SecretsGet (GetCASecretName tls)) w = (inr e, w1) ->
      run handle (ensureTLSCACertificateSecret r tls) w
      = {| result := Some (maskAny e); world := w1;
           trace := [Called (SecretsGet (GetCASecretName tls))] |}) /\
  (forall auth,
      handle _ (SecretsGet (GetClientCASecretName auth)) w = (inr e, w1) ->
      run handle (ensureClientAuthCACertificateSecret r auth) w
      = {| result := Some (maskAny e); world := w1;
           trace := [Called (SecretsGet (GetClientCASecretName auth))] |}).
Proof.
  intros Hnf. split; [| split; [| split]].
  - intros secretName Hget. unfold ensureTokenSecret.
    step Hget. rewrite Hnf. reflexivity.
  - intros tokenSecretName secretSecretName Hget.
    unfold ensureExporterTokenSecret,
      ensureExporterTokenSecretCreateRequired.
    step Hget. rewrite Hnf. reflexivity.
  - intros tls Hget. unfold ensureTLSCACertificateSecret.
    step Hget. rewrite Hnf. reflexivity.
  - intros auth Hget. unfold ensureClientAuthCACertificateSecret.
    step Hget. rewrite Hnf. reflexivity.
Qed.

(** X9.  The validator of the exporter token only reads: whatever the store
    answers, it makes no create and no delete call, and the only secrets it
    reads are the token secret and the signing secret. *)
Theorem ensureExporterTokenSecretCreateRequired_reads_only (w : W)
    (tokenSecretName secretSecretName : string) :
  Forall (fun c =>
            creates c = None /\ deletes c = None /\
            match c with
            | Called (SecretsGet n) => n = tokenSecretName
            | Called (GetTokenSecret n) => n = secretSecretName
            | _ => True
            end)
    (trace (run handle
              (ensureExporterTokenSecretCreateRequired tokenSecretName
                 secretSecretName) w)).
Proof.
  apply allCalls_run. unfold ensureExporterTokenSecretCreateRequired.
  all_calls.
Qed.

(** X10.  The decision of the validator on a token secret that exists: with
    no token field (the signing secret is then not even read), or with a
    token that does not parse under the signing key, it asks for recreation
    of the existing secret without error. *)
Theorem ensureExporterTokenSecretCreateRequired_recreate (w w1 : W)
    (tokenSecretName secretSecretName : string) (secret : Secret) :
  handle _ (SecretsGet tokenSecretName) w = (inl secret, w1) ->
  let o :=
    run handle
      (ensureExporterTokenSecretCreateRequired tokenSecretName
         secretSecretName) w in
  (secret_Data secret !! SecretKeyToken = None ->
   result o = (true, true, None) /\
   trace o = [Called (SecretsGet tokenSecretName)]) /\
  (forall data key w2 w3 e,
      secret_Data secret !! SecretKeyToken = Some data ->
      handle _ (GetTokenSecret secretSecretName) w1 = (inl key, w2) ->
      handle _ (JwtParse data key) w2 = (inr e, w3) ->
      result o = (true, true, None)).
Proof.
  intros Hget o. subst o.
  unfold ensureExporterTokenSecretCreateRequired.
  split.
  - intros Hdata. step Hget. rewrite Hdata. auto.
  - intros data key w2 w3 e Hdata Hkey Hparse.
    step Hget. rewrite Hdata. step Hkey. step Hparse. reflexivity.
Qed.

(** X11.  When the token secret exists with a token field but the signing
    secret cannot be read, the exporter ensure fails with the masked read
    error after the two reads: the existing token secret is neither deleted
    nor replaced. *)
Theorem ensureExporterTokenSecret_signing_key_unreadable (w w1 w2 : W)
    (tokenSecretName secretSecretName data : string) (secret : Secret)
    (e : error) :
  handle _ (SecretsGet tokenSecretName) w = (inl secret, w1) ->
  secret_Data secret !! SecretKeyToken = Some data ->
  handle _ (GetTokenSecret secretSecretName) w1 = (inr e, w2) ->
  run handle (ensureExporterTokenSecret r tokenSecretName secretSecretName) w
  = {| result := Some (maskAny e); world := w2;
       trace := [Called (SecretsGet tokenSecretName);
                 Called (GetTokenSecret secretSecretName)] |}.
Proof.
  intros Hget Hdata Hkey.
  unfold ensureExporterTokenSecret, ensureExporterTokenSecretCreateRequired.
  step Hget. rewrite Hdata. step Hkey. reflexivity.
Qed.



(** X14.  The keyfolder is made of the stored key and of nothing else: when
    the source secret has data and holds the encryption-key field, the only
    call after the read hands exactly the stored bytes to
    [AppendKeyfileToKeyfolder] for the keyfolder name, with the deployment
    as owner; the result is nil if that call succeeds, and otherwise its
    error wrapped with the cause kept. *)
Theorem ensureEncryptionKeyfolderSecret_uses_stored_key (w w1 w2 : W)
    (keyfileSecretName secretName d : string) (keyfile : Secret)
    (aerr : option error) :
  handle _ (SecretsGet keyfileSecretName) w = (inl keyfile, w1) ->
  secret_Data keyfile !! SecretEncryptionKey = Some d ->
  handle _ (AppendKeyfileToKeyfolder (AsOwner (GetAPIObject r)) secretName d)
    w1 = (aerr, w2) ->
  let o := run handle
             (ensureEncryptionKeyfolderSecret r keyfileSecretName secretName)
             w in
  trace o =
    [Called (SecretsGet keyfileSecretName);
     Called (AppendKeyfileToKeyfolder (AsOwner (GetAPIObject r)) secretName
               d)] /\
  result o =
    ((fun e => Wrapf e "Unable to create keyfolder secret") <$> aerr) /\
  (Cause <$> result o) = (Cause <$> aerr).
Proof.
  intros Hget Hkey Happend o.
  assert (Hsize : Nat.eqb (size (secret_Data keyfile)) 0 = false).
  { apply Nat.eqb_neq. intros Hzero.
    apply map_size_empty_iff in Hzero. rewrite Hzero in Hkey.
    rewrite lookup_empty in Hkey. discriminate Hkey. }
  assert (Hrun : o =
            {| result :=
                 (fun e => Wrapf e "Unable to create keyfolder secret")
                   <$> aerr;
               world := w2;
               trace :=
                 [Called (SecretsGet keyfileSecretName);
                  Called (AppendKeyfileToKeyfolder (AsOwner (GetAPIObject r))
                            secretName d)] |}).
  { subst o. unfold ensureEncryptionKeyfolderSecret.
    step Hget. rewrite Hsize, Hkey. step Happend.
    destruct aerr; reflexivity. }
  rewrite Hrun. cbn. repeat split. destruct aerr; reflexivity.
Qed.

End ReadFailures.

(** A store that refuses every read. *)
Lemma ensure_read_failure_witness :
  let r := exampleResources (exampleSpec true true true false true) in
  let handle :=
    scripted (fun _ => inr forbidden) (fun _ => inr forbidden) None None
      (inr forbidden) in
  IsNotFound (Some forbidden) = false /\
  result (run handle (ensureTokenSecret r "depl-jwt") tt)
    = Some (maskAny forbidden) /\
  trace (run handle (ensureTLSCACertificateSecret r (TLS (GetSpec r))) tt)
    = [Called (SecretsGet "depl-ca")].
Proof.
  intros r handle.
  pose proof (ensure_read_failure (H := upstream) r handle tt tt forbidden
                eq_refl) as (Htok & _ & Htls & _).
  split; [reflexivity |]. split.
  - rewrite (Htok "depl-jwt" eq_refl). reflexivity.
  - rewrite (Htls (TLS (GetSpec r)) eq_refl). reflexivity.
Defined.

(** An exporter token secret without token field. *)
Lemma ensureExporterTokenSecretCreateRequired_recreate_witness :
  let handle :=
    scripted (fun n => inl (secretOf n ∅)) (fun _ => inl "key") None None
      (inr (Errorf "signature is invalid")) in
  secret_Data (secretOf "depl-exporter-jwt-token" ∅)
    !! SecretKeyToken (K8sUtil := upstream) = None /\
  result (run handle
            (ensureExporterTokenSecretCreateRequired (H := upstream)
               "depl-exporter-jwt-token" "depl-jwt") tt)
  = (true, true, None).
Proof.
  intros handle. split; [reflexivity |].
  apply (proj1 (ensureExporterTokenSecretCreateRequired_recreate
                  (H := upstream) handle tt tt "depl-exporter-jwt-token"
                  "depl-jwt" (secretOf "depl-exporter-jwt-token" ∅)
                  eq_refl) eq_refl).
Defined.

(** An exporter token whose signing secret cannot be read. *)
Lemma ensureExporterTokenSecret_signing_key_unreadable_witness :
  let r := exampleResources (exampleSpec true true false false false) in
  let handle :=
    scripted (fun n => inl (secretOf n {[ "token" := "jwt.0" ]}))
      (fun _ => inr forbidden) None None (inr forbidden) in
  secret_Data (secretOf "depl-exporter-jwt-token" {[ "token" := "jwt.0" ]})
    !! SecretKeyToken (K8sUtil := upstream) = Some "jwt.0" /\
  run handle
    (ensureExporterTokenSecret (H := upstream) r "depl-exporter-jwt-token"
       "depl-jwt") tt
  = {| result := Some (maskAny forbidden); world := tt;
       trace := [Called (SecretsGet "depl-exporter-jwt-token");
                 Called (GetTokenSecret "depl-jwt")] |}.
Proof.
  intros r handle. split; [reflexivity |].
  apply (ensureExporterTokenSecret_signing_key_unreadable (H := upstream) r
           handle tt tt tt "depl-exporter-jwt-token" "depl-jwt" "jwt.0"
           (secretOf "depl-exporter-jwt-token" {[ "token" := "jwt.0" ]})
           forbidden);
    reflexivity.
Defined.


(** A keyfile secret holding a key: the keyfolder receives that key. *)
Lemma ensureEncryptionKeyfolderSecret_uses_stored_key_witness :
  let r := exampleResources (exampleSpec true false false true false) in
  let w := storeWith "depl-keyfile" {[ "key" := "0123456789abcdef" ]} in
  let o := run (Mem.handle (H := upstream))
             (ensureEncryptionKeyfolderSecret (H := upstream) r
                "depl-keyfile" "depl-encryption-folder") w in
  (exists keyfile,
      Mem.secrets w !! "depl-keyfile" = Some keyfile /\
      secret_Data keyfile !! "key" = Some "0123456789abcdef") /\
  result o = None /\
  trace o =
    [Called (SecretsGet "depl-keyfile");
     Called (AppendKeyfileToKeyfolder (AsOwner (GetAPIObject r))
               "depl-encryption-folder" "0123456789abcdef")].
Proof.
  intros r w o.
  split; [eexists; split; vm_compute; reflexivity |].
  edestruct (ensureEncryptionKeyfolderSecret_uses_stored_key (H := upstream)
               r (Mem.handle (H := upstream)) w w
               (snd (Mem.handle (H := upstream) _
                       (AppendKeyfileToKeyfolder (AsOwner (GetAPIObject r))
                          "depl-encryption-folder" "0123456789abcdef") w))
               "depl-keyfile"
               "depl-encryption-folder" "0123456789abcdef"
               (secretOf "depl-keyfile" {[ "key" := "0123456789abcdef" ]})
               None)
    as (Htrace & Hres & _).
  - vm_compute. reflexivity.
  - vm_compute. reflexivity.
  - vm_compute. reflexivity.
  - split; [exact Hres | exact Htrace].
Defined.

(** ** Further properties: reading the credentials back *)

Section Getters.
Context {W : Type} (handle : forall R, Op R -> W -> R * W).

(** X15.  The three getters.  [getJWTSecret] reads nothing and returns the
    empty token without error when authentication is disabled; otherwise it
    makes the single token read of the primary secret.  The two sync getters
    make their single read whether or not sync is enabled.  Each passes the
    token read through unchanged and returns a failed read masked, with the
    empty token. *)
Theorem getters_single_read (spec : DeploymentSpec) (w : W) :
  let answer (got : string + error) : string * option error :=
    match got with
    | inl s => (s, None)
    | inr e => ("", Some (maskAny e))
    end in
  (IsAuthenticated spec = false ->
   run handle (getJWTSecret spec) w
   = {| result := ("", None); world := w; trace := [] |}) /\
  (IsAuthenticated spec = true ->
   forall got w1,
     handle _ (GetTokenSecret (Authentication_GetJWTSecretName spec)) w
       = (got, w1) ->
     run handle (getJWTSecret spec) w
     = {| result := answer got; world := w1;
          trace := [Called (GetTokenSecret
                              (Authentication_GetJWTSecretName spec))] |}) /\
  (forall got w1,
      handle _ (GetTokenSecret
                  (sync_GetJWTSecretName (Sync_Authentication spec))) w
        = (got, w1) ->
      run handle (getSyncJWTSecret spec) w
      = {| result := answer got; world := w1;
           trace := [Called (GetTokenSecret
                               (sync_GetJWTSecretName
                                  (Sync_Authentication spec)))] |}) /\
  (forall got w1,
      handle _ (GetTokenSecret (Sync_Monitoring_GetTokenSecretName spec)) w
        = (got, w1) ->
      run handle (getSyncMonitoringToken spec) w
      = {| result := answer got; world := w1;
           trace := [Called (GetTokenSecret
                               (Sync_Monitoring_GetTokenSecretName spec))] |}).
Proof.
  intros answer. subst answer. split; [| split; [| split]].
  - intros Hoff. unfold getJWTSecret. rewrite Hoff. reflexivity.
  - intros Hon got w1 Hget. unfold getJWTSecret. rewrite Hon.
    cbn [negb]. step Hget. destruct got; reflexivity.
  - intros got w1 Hget. unfold getSyncJWTSecret. step Hget.
    destruct got; reflexivity.
  - intros got w1 Hget. unfold getSyncMonitoringToken. step Hget.
    destruct got; reflexivity.
Qed.

End Getters.

Lemma getters_single_read_witness :
  let off := exampleSpec false false false false false in
  let on := exampleSpec true false false false false in
  let w := storeWith "depl-jwt" {[ "token" := "0a1b2c" ]} in
  (IsAuthenticated off = false /\ IsAuthenticated on = true) /\
  result (run (Mem.handle (H := upstream)) (getJWTSecret off) w)
    = ("", None) /\
  result (run (Mem.handle (H := upstream)) (getJWTSecret on) w)
    = ("0a1b2c", None) /\
  fst (result (run (Mem.handle (H := upstream)) (getSyncJWTSecret off) w))
    = "".
Proof.
  intros off on w.
  pose proof (getters_single_read (Mem.handle (H := upstream)) off w)
    as (Hoff & _ & Hsync & _).
  pose proof (getters_single_read (Mem.handle (H := upstream)) on w)
    as (_ & Hon & _).
  split; [split; reflexivity |]. split; [| split].
  - rewrite (Hoff eq_refl). reflexivity.
  - rewrite (Hon eq_refl (inl "0a1b2c") w eq_refl). reflexivity.
  - rewrite (Hsync (inr (maskAny Mem.notFound)) w eq_refl). reflexivity.
Defined.

Lemma randomBytes_length (seed n : nat) :
  String.length (Mem.randomBytes seed n) = n.
Proof.
  induction n as [|n IH]; cbn; [reflexivity | rewrite IH; reflexivity].
Qed.

(** X16.  Ensure, then read back, on the in-memory store with
    authentication enabled: the getter returns without error the token the
    store holds for the primary secret.  If the secret existed with a token
    field, that is the old token (it is not rotated); if it did not exist,
    it is the new token of 64 hexadecimal digits. *)
Theorem ensure_then_getJWTSecret `{K8sUtil} (r : Resources) (w : Mem.World) :
  IsAuthenticated (GetSpec r) = true ->
  let secretName := Authentication_GetJWTSecretName (GetSpec r) in
  let o := run Mem.handle (ensureTokenSecret r secretName) w in
  let o' := run Mem.handle (getJWTSecret (GetSpec r)) (world o) in
  (forall s old,
      Mem.secrets w !! secretName = Some s ->
      secret_Data s !! SecretKeyToken = Some old ->
      result o' = (old, None)) /\
  (Mem.secrets w !! secretName = None ->
   exists token,
     result o' = (token, None) /\
     String.length token = 64%nat /\ allHex token = true).
Proof.
  intros Hauth secretName o o'. subst o' o secretName.
  unfold getJWTSecret, ensureTokenSecret. rewrite Hauth.
  cbn [negb run bind call Mem.handle].
  split.
  - intros s old Hs Hold. rewrite Hs. cbn.
    unfold Mem.getTokenSecret. rewrite Hs, Hold. reflexivity.
  - intros Hnone. rewrite Hnone. cbn -[EncodeToString Mem.randomBytes].
    unfold Mem.createTokenSecret, Mem.create.
    cbn -[EncodeToString Mem.randomBytes]. rewrite Hnone.
    cbn -[EncodeToString Mem.randomBytes].
    unfold Mem.getTokenSecret. cbn -[EncodeToString Mem.randomBytes].
    rewrite lookup_insert_eq. cbn -[EncodeToString Mem.randomBytes].
    rewrite lookup_singleton_eq. eexists. split; [reflexivity |].
    split; [| apply EncodeToString_allHex].
    rewrite EncodeToString_length, randomBytes_length. reflexivity.
Qed.

Lemma ensure_then_getJWTSecret_witness :
  let r := exampleResources (exampleSpec true false false false false) in
  let o := run (Mem.handle (H := upstream)) (ensureTokenSecret r "depl-jwt")
             Mem.empty in
  (IsAuthenticated (GetSpec r) = true /\
   Mem.secrets Mem.empty !! "depl-jwt" = None) /\
  exists token,
    result (run (Mem.handle (H := upstream)) (getJWTSecret (GetSpec r))
              (world o)) = (token, None) /\
    String.length token = 64%nat /\ allHex token = true.
Proof.
  intros r o. split; [split; reflexivity |].
  apply (proj2 (ensure_then_getJWTSecret (H := upstream) r Mem.empty
                  eq_refl)).
  reflexivity.
Defined.

(** ** Further properties: the client factory *)

Lemma prefix_app (p s : string) : String.prefix p (p ++ s) = true.
Proof.
  induction p as [|c p IH]; [destruct s; reflexivity |].
  change (String c p ++ s) with (String c (p ++ s)).
  cbn [String.prefix].
  destruct (Ascii.ascii_dec c c) as [_ | Hne]; [exact IH | congruence].
Qed.

Section ClientFactory.
Context `{K8sUtil}.
Context {W : Type} (handle : forall R, Op R -> W -> R * W).

Lemma createArangodHTTPConfigForDNSNames_no_error (ctx : Ctx)
    (apiObject : option ArangoDeployment) (dnsNames : list string)
    (shortTimeout : bool) :
  snd (createArangodHTTPConfigForDNSNames ctx apiObject dnsNames
         shortTimeout) = None.
Proof.
  unfold createArangodHTTPConfigForDNSNames.
  destruct (match apiObject with
            | Some obj => IsSecure (Spec obj)
            | None => false
            end); reflexivity.
Qed.

(** X17.  The connection configuration keeps scheme and transport
    together: there is one endpoint per DNS name, redirects are not
    followed, and every endpoint is an "https://" URL exactly when the
    chosen transport carries a TLS client configuration. *)
Theorem createArangodHTTPConfigForDNSNames_endpoints (ctx : Ctx)
    (apiObject : option ArangoDeployment) (dnsNames : list string)
    (shortTimeout : bool) :
  let config :=
    fst (createArangodHTTPConfigForDNSNames ctx apiObject dnsNames
           shortTimeout) in
  length (Endpoints config) = length dnsNames /\
  DontFollowRedirect config = true /\
  Forall (fun endpoint =>
            String.prefix "https://" endpoint
            = match TLSClientConfig (cc_Transport config) with
              | Some _ => true
              | None => false
              end)
    (Endpoints config).
Proof.
  intros config. subst config. unfold createArangodHTTPConfigForDNSNames.
  destruct (match apiObject with
            | Some obj => IsSecure (Spec obj)
            | None => false
            end);
    destruct shortTimeout; cbn [fst Endpoints DontFollowRedirect cc_Transport
                                  TLSClientConfig sharedHTTPTransport
                                  sharedHTTPSTransport
                                  sharedHTTPTransportShortTimeout
                                  sharedHTTPSTransportShortTimeout];
    (split; [apply length_fmap |]); (split; [reflexivity |]);
    apply Forall_fmap, Forall_forall; intros dnsName _; cbn [compose];
    first [ apply (prefix_app "https://") | reflexivity ].
Qed.

(** X18.  Order and failures of a client build.  If the driver refuses the
    connection, the build fails at once: no secret is read and no client is
    built.  If the connection is made and the authentication selection
    fails on the token read, the build fails after that read and no client
    is built.  Otherwise the client is built from that connection with the
    selected authentication, and a failure to build it is returned masked.
    Every error keeps its cause. *)
Theorem createArangodClientForDNSName_order (ctx : Ctx)
    (apiObject : option ArangoDeployment) (dnsName : string)
    (shortTimeout : bool) (w : W) :
  let config :=
    fst (createArangodHTTPConfigForDNSNames ctx apiObject [dnsName]
           shortTimeout) in
  let build := createArangodClientForDNSName ctx apiObject dnsName
                 shortTimeout in
  (forall e w1,
      handle _ (NewConnection config) w = (inr e, w1) ->
      run handle build w
      = {| result := inr (maskAny e); world := w1;
           trace := [Called (NewConnection config)] |}) /\
  (forall conn w1 obj e w2,
      handle _ (NewConnection config) w = (inl conn, w1) ->
      apiObject = Some obj -> IsAuthenticated (Spec obj) = true ->
      Value ctx skipAuthenticationKey = Nil ->
      handle _ (GetTokenSecret (Authentication_GetJWTSecretName (Spec obj)))
        w1 = (inr e, w2) ->
      run handle build w
      = {| result := inr (maskAny (maskAny e)); world := w2;
           trace :=
             [Called (NewConnection config);
              Called (GetTokenSecret
                        (Authentication_GetJWTSecretName (Spec obj)))] |}) /\
  (forall conn w1 auth w2 t got w3,
      handle _ (NewConnection config) w = (inl conn, w1) ->
      run handle (createArangodClientAuthentication ctx apiObject) w1
        = {| result := (auth, None); world := w2; trace := t |} ->
      handle _ (NewClient {| cfg_Connection := conn;
                             cfg_Authentication := auth |}) w2
        = (got, w3) ->
      run handle build w
      = {| result := match got with
                     | inl c => inl c
                     | inr e => inr (maskAny e)
                     end;
           world := w3;
           trace :=
             Called (NewConnection config) :: t ++
             [Called (NewClient {| cfg_Connection := conn;
                                   cfg_Authentication := auth |})] |}).
Proof.
  intros config build. subst config build.
  unfold createArangodClientForDNSName.
  pose proof (createArangodHTTPConfigForDNSNames_no_error ctx apiObject
                [dnsName] shortTimeout) as Herr.
  destruct (createArangodHTTPConfigForDNSNames ctx apiObject [dnsName]
              shortTimeout) as [cfg err].
  cbn [fst snd] in Herr |- *. subst err.
  split; [| split].
  - intros e w1 Hconn. step Hconn. reflexivity.
  - intros conn w1 obj e w2 Hconn -> Hauth Hskip Hget.
    unfold createArangodClientAuthentication.
    rewrite Hauth, Hskip. cbn [isNil].
    step Hconn. step Hget. reflexivity.
  - intros conn w1 auth w2 t got w3 Hconn Hauth Hclient.
    step Hconn. rewrite run_bind, Hauth.
    cbn [result world trace run bind call]. rewrite Hclient.
    destruct got; reflexivity.
Qed.

Lemma maskedClient_first_call (ctx : Ctx)
    (apiObject : option ArangoDeployment) (dnsName : string)
    (shortTimeout : bool) (w : W) :
  exists t,
    trace (run handle
             (maskedClient
                (createArangodClientForDNSName ctx apiObject dnsName
                   shortTimeout)) w)
    = Called (NewConnection
                (fst (createArangodHTTPConfigForDNSNames ctx apiObject
                        [dnsName] shortTimeout))) :: t.
Proof.
  unfold maskedClient, createArangodClientForDNSName.
  pose proof (createArangodHTTPConfigForDNSNames_no_error ctx apiObject
                [dnsName] shortTimeout) as Herr.
  destruct (createArangodHTTPConfigForDNSNames ctx apiObject [dnsName]
              shortTimeout) as [cfg err].
  cbn [fst snd] in Herr |- *. subst err.
  rewrite run_bind. cbn [run bind call].
  destruct (handle _ (NewConnection cfg) w) as [got w1].
  cbn [trace app]. eexists. reflexivity.
Qed.

(** X19.  The first call of each exported builder.  The member client
    connects to the pod's DNS name through a normal-timeout pool, secure or
    not as the deployment is; the database client connects to the service
    DNS name and honours the short-timeout flag; the image-ID client always
    connects over plain "http" through the normal plaintext pool, whatever
    the TLS setting of the deployment it is given. *)
Theorem builders_first_call (ctx : Ctx) (d : ArangoDeployment)
    (role id : string) (shortTimeout : bool) (w : W) :
  let endpoint (scheme dnsName : string) :=
    scheme ++ "://" ++ JoinHostPort dnsName (Itoa ArangoPort) in
  let scheme := if IsSecure (Spec d) then "https" else "http" in
  (exists t,
      trace (run handle (CreateArangodClient ctx d role id) w)
      = Called (NewConnection
                  {| cc_Transport :=
                       if IsSecure (Spec d) then sharedHTTPSTransport
                       else sharedHTTPTransport;
                     DontFollowRedirect := true;
                     Endpoints :=
                       [endpoint scheme (CreatePodDNSName d role id)] |})
        :: t) /\
  (exists t,
      trace (run handle (CreateArangodDatabaseClient ctx d shortTimeout) w)
      = Called (NewConnection
                  {| cc_Transport :=
                       if IsSecure (Spec d) then
                         if shortTimeout
                         then sharedHTTPSTransportShortTimeout
                         else sharedHTTPSTransport
                       else
                         if shortTimeout
                         then sharedHTTPTransportShortTimeout
                         else sharedHTTPTransport;
                     DontFollowRedirect := true;
                     Endpoints :=
                       [endpoint scheme
                          (CreateDatabaseClientServiceDNSName d)] |})
        :: t) /\
  (exists t,
      trace (run handle (CreateArangodImageIDClient ctx d role id) w)
      = Called (NewConnection
                  {| cc_Transport := sharedHTTPTransport;
                     DontFollowRedirect := true;
                     Endpoints :=
                       [endpoint "http" (CreatePodDNSName d role id)] |})
        :: t).
Proof.
  intros endpoint scheme. subst endpoint scheme.
  unfold CreateArangodClient, CreateArangodDatabaseClient,
    CreateArangodImageIDClient.
  split; [| split].
  - destruct (maskedClient_first_call ctx (Some d)
                (CreatePodDNSName d role id) false w) as [t Ht].
    exists t. rewrite Ht. unfold createArangodHTTPConfigForDNSNames.
    destruct (IsSecure (Spec d)); reflexivity.
  - destruct (maskedClient_first_call ctx (Some d)
                (CreateDatabaseClientServiceDNSName d) shortTimeout w)
      as [t Ht].
    exists t. rewrite Ht. unfold createArangodHTTPConfigForDNSNames.
    destruct (IsSecure (Spec d)), shortTimeout; reflexivity.
  - destruct (maskedClient_first_call ctx None
                (CreatePodDNSName d role id) false w) as [t Ht].
    exists t. rewrite Ht. reflexivity.
Qed.

(** X20.  A client build never writes to the secret store, and the only
    secret it can read is the primary token secret of the API object, which
    it reads only if authentication is enabled and the context does not
    carry the skip marker. *)
Theorem createArangodClientForDNSName_reads_only (ctx : Ctx)
    (apiObject : option ArangoDeployment) (dnsName : string)
    (shortTimeout : bool) (w : W) :
  Forall (fun c =>
            creates c = None /\ deletes c = None /\
            match c with
            | Called (GetTokenSecret n) =>
                exists obj,
                  apiObject = Some obj /\
                  n = Authentication_GetJWTSecretName (Spec obj) /\
                  IsAuthenticated (Spec obj) = true /\
                  Value ctx skipAuthenticationKey = Nil
            | c => isSecretOp c = false
            end)
    (trace (run handle
              (createArangodClientForDNSName ctx apiObject dnsName
                 shortTimeout) w)).
Proof.
  apply allCalls_run.
  unfold createArangodClientForDNSName, createArangodClientAuthentication.
  cbn [createArangodHTTPConfigForDNSNames fst snd].
  destruct (match apiObject with
            | Some obj => IsSecure (Spec obj)
            | None => false
            end); cbn [fst snd].
  all: destruct apiObject as [obj|];
    [destruct (IsAuthenticated (Spec obj)) eqn:Hauth;
     [destruct (Value ctx skipAuthenticationKey) eqn:Hskip |] |];
    all_calls; eauto 10.
Qed.

End ClientFactory.

(** A build whose token read is refused: no client is built. *)
Lemma createArangodClientForDNSName_order_witness :
  let d := exampleDeployment (exampleSpec true false false false false) in
  let handle :=
    scripted (fun _ => inr forbidden) (fun _ => inr forbidden) None None
      (inr forbidden) in
  let build :=
    createArangodClientForDNSName (H := upstream) Background (Some d)
      "depl.default.svc" false in
  (IsAuthenticated (Spec d) = true /\
   Value Background skipAuthenticationKey = Nil) /\
  result (run handle build tt) = inr (maskAny (maskAny forbidden)) /\
  length (trace (run handle build tt)) = 2%nat.
Proof.
  intros d handle build.
  pose proof (proj1 (proj2 (createArangodClientForDNSName_order
                              (H := upstream) handle Background (Some d)
                              "depl.default.svc" false tt))
                {| conn_Config :=
                     fst (createArangodHTTPConfigForDNSNames (H := upstream)
                            Background (Some d) ["depl.default.svc"] false)
                |} tt d forbidden tt eq_refl eq_refl eq_refl eq_refl eq_refl)
    as Hrun.
  split; [split; reflexivity |].
  subst build. rewrite Hrun. split; reflexivity.
Defined.

(** ** Further properties: the context markers *)

(** X21.  The two markers are independent and lasting: setting one does not
    change the other, they can be set in either order, and values set later
    under other keys do not hide them.  A context made by
    [WithSkipAuthentication] yields no credential, no error and no secret
    read when authentication is enabled, even if the context also requires
    authentication; a context made by [WithRequireAuthentication] makes the
    selection fail when authentication is disabled or the API object is
    absent, even if the context also asks to skip. *)
Theorem context_markers {W : Type} (handle : forall R, Op R -> W -> R * W)
    (ctx : Ctx) (w : W) :
  (forall key,
      Value (WithSkipAuthentication (WithRequireAuthentication ctx)) key
      = Value (WithRequireAuthentication (WithSkipAuthentication ctx)) key) /\
  (forall name v key,
      key <> otherKey name ->
      Value (WithValue ctx (otherKey name) v) key = Value ctx key) /\
  (forall obj,
      IsAuthenticated (Spec obj) = true ->
      run handle
        (createArangodClientAuthentication (WithSkipAuthentication ctx)
           (Some obj)) w
      = {| result := (None, None); world := w; trace := [] |}) /\
  (forall apiObject,
      match apiObject with
      | Some obj => IsAuthenticated (Spec obj) = false
      | None => True
      end ->
      run handle
        (createArangodClientAuthentication (WithRequireAuthentication ctx)
           apiObject) w
      = {| result := (None, Some (maskAny (Errorf requiredMessage)));
           world := w; trace := [] |}).
Proof.
  split; [| split; [| split]].
  - intros key. cbn. repeat case_decide; congruence.
  - intros name v key Hne. cbn. case_decide; congruence.
  - intros obj Hauth. unfold createArangodClientAuthentication.
    rewrite Hauth. reflexivity.
  - intros [obj|] Hoff; unfold createArangodClientAuthentication;
      [rewrite Hoff |]; reflexivity.
Qed.

Lemma context_markers_witness :
  let on := exampleDeployment (exampleSpec true false false false false) in
  let ctx := WithRequireAuthentication Background in
  IsAuthenticated (Spec on) = true /\
  result (run (Mem.handle (H := upstream))
            (createArangodClientAuthentication (WithSkipAuthentication ctx)
               (Some on)) Mem.empty) = (None, None) /\
  result (run (Mem.handle (H := upstream))
            (createArangodClientAuthentication ctx None) Mem.empty)
  = (None, Some (maskAny (Errorf requiredMessage))).
Proof.
  intros on ctx.
  pose proof (context_markers (Mem.handle (H := upstream)) ctx Mem.empty)
    as (_ & _ & Hskip & _).
  pose proof (context_markers (Mem.handle (H := upstream)) Background
                Mem.empty) as (_ & _ & _ & Hreq).
  split; [reflexivity |]. split.
  - rewrite (Hskip on eq_refl). reflexivity.
  - subst ctx. rewrite (Hreq None I). reflexivity.
Defined.

(** ** Further properties: the namespaced lister *)

Lemma slash_split (a b c d : string) :
  hasSlash a = false -> hasSlash c = false ->
  a ++ String "/" b = c ++ String "/" d -> a = c /\ b = d.
Proof.
  revert c. induction a as [|x a IH]; intros [|y c] Ha Hc Heq.
  - change (String "/" b = String "/" d) in Heq. injection Heq as ->. auto.
  - change (String "/" b = String y (c ++ String "/" d)) in Heq.
    injection Heq as <- _. cbn in Hc.
    destruct (decide ("/"%char = "/"%char)); [discriminate | congruence].
  - change (String x (a ++ String "/" b) = String "/" d) in Heq.
    injection Heq as -> _. cbn in Ha.
    destruct (decide ("/"%char = "/"%char)); [discriminate | congruence].
  - change (String x (a ++ String "/" b) = String y (c ++ String "/" d))
      in Heq.
    injection Heq as -> Heq. cbn in Ha, Hc.
    destruct (decide (y = "/"%char)); [discriminate |].
    destruct (IH c Ha Hc Heq) as [-> ->]. auto.
Qed.

(** The namespaced getter returns an error of the indexer as it is,
    without masking; with no error it returns NotFound exactly when the
    indexer has no item under "namespace/name", and the item otherwise. *)
Lemma Lister_Get_cases (i : Lister.Indexer) (ns name : string) :
  let got := Lister.GetByKey i (ns ++ "/" ++ name) in
  let res := Lister.Get (Lister.ArangoDeployments i ns) name in
  (forall e, snd got = Some e -> res = inr e) /\
  (snd got = None ->
   (fst got = None <-> res = inr (StatusError StatusReasonNotFound)) /\
   (forall d, fst got = Some d <-> res = inl d)).
Proof.
  intros got res. subst got res. unfold Lister.Get, Lister.ArangoDeployments.
  cbn [Lister.indexer Lister.namespace].
  destruct (Lister.GetByKey i (ns ++ "/" ++ name)) as [[d|] [e|]];
    cbn [fst snd]; split; try discriminate; try (intros e' [= ->]);
    try reflexivity; intros _; split; try (intros d'); split;
    congruence.
Qed.

Lemma Lister_Get_cases_witness :
  let d := exampleDeployment (exampleSpec true false false false false) in
  let i := Lister.mapIndexer (Lister.store d ∅) in
  snd (Lister.GetByKey i ("default" ++ "/" ++ "depl")) = None /\
  Lister.Get (Lister.ArangoDeployments i "default") "depl" = inl d.
Proof.
  intros d i. split; [reflexivity |].
  apply (proj1 (proj2 (proj2 (Lister_Get_cases i "default" "depl") eq_refl)
                  d)).
  vm_compute. reflexivity.
Defined.

(** X22.  Store and get.  A deployment stored in the cache under its key is
    what the lister of its namespace returns for its name.  For namespaces
    without a slash, storing it changes the answer for no other namespace
    and name. *)
Theorem Lister_Get_store (m : gmap string ArangoDeployment)
    (d : ArangoDeployment) :
  Lister.Get
    (Lister.ArangoDeployments (Lister.mapIndexer (Lister.store d m))
       (GetNamespace d)) (GetName d) = inl d /\
  (forall ns name,
      hasSlash ns = false -> hasSlash (GetNamespace d) = false ->
      (ns, name) <> (GetNamespace d, GetName d) ->
      Lister.Get
        (Lister.ArangoDeployments (Lister.mapIndexer (Lister.store d m)) ns)
        name
      = Lister.Get (Lister.ArangoDeployments (Lister.mapIndexer m) ns) name).
Proof.
  unfold Lister.Get, Lister.ArangoDeployments, Lister.mapIndexer,
    Lister.store, Lister.keyOf.
  cbn [Lister.indexer Lister.namespace Lister.GetByKey].
  split.
  - rewrite lookup_insert_eq. reflexivity.
  - intros ns name Hns Hd Hne.
    rewrite lookup_insert_ne; [reflexivity |].
    intros Heq. apply slash_split in Heq; [| assumption | assumption].
    destruct Heq as [Hn Hm]. apply Hne. rewrite Hn, Hm. reflexivity.
Qed.

Lemma Lister_Get_store_witness :
  let d := exampleDeployment (exampleSpec true false false false false) in
  (hasSlash "other" = false /\ hasSlash (GetNamespace d) = false /\
   ("other", "depl") <> (GetNamespace d, GetName d)) /\
  Lister.Get
    (Lister.ArangoDeployments (Lister.mapIndexer (Lister.store d ∅)) "other")
    "depl"
  = inr (StatusError StatusReasonNotFound).
Proof.
  intros d. split; [repeat split; discriminate |].
  rewrite (proj2 (Lister_Get_store ∅ d) "other" "depl" eq_refl eq_refl);
    [reflexivity | discriminate].
Defined.

(** Without the condition on slashes the keys collide: a deployment named
    "b/c" in namespace "a" answers for the name "c" in namespace "a/b". *)
Lemma Lister_key_collision :
  let d := {| GetName := "b/c"; GetNamespace := "a";
              AsOwner := {| owner_Name := "b/c"; owner_UID := "uid-2" |};
              Spec := exampleSpec false false false false false |} in
  Lister.Get
    (Lister.ArangoDeployments (Lister.mapIndexer (Lister.store d ∅)) "a/b")
    "c" = inl d.
Proof. vm_compute. reflexivity. Qed.

(** ** Further properties: certificate authorities are created once *)

(** X23.  An existing CA secret is left alone: when the read finds the
    server TLS CA secret, or the client-auth CA secret, the ensure returns
    nil after that single read; no certificate is generated and nothing is
    created or replaced. *)
Theorem ensureCA_found {W : Type} (handle : forall R, Op R -> W -> R * W)
    (r : Resources) (w w1 : W) (s : Secret) :
  (forall tls,
      handle _ (SecretsGet (GetCASecretName tls)) w = (inl s, w1) ->
      run handle (ensureTLSCACertificateSecret r tls) w
      = {| result := None; world := w1;
           trace := [Called (SecretsGet (GetCASecretName tls))] |}) /\
  (forall auth,
      handle _ (SecretsGet (GetClientCASecretName auth)) w = (inl s, w1) ->
      run handle (ensureClientAuthCACertificateSecret r auth) w
      = {| result := None; world := w1;
           trace := [Called (SecretsGet (GetClientCASecretName auth))] |}).
Proof.
  split.
  - intros tls Hget. unfold ensureTLSCACertificateSecret. step Hget.
    reflexivity.
  - intros auth Hget. unfold ensureClientAuthCACertificateSecret.
    step Hget. reflexivity.
Qed.

Lemma ensureCA_found_witness :
  let r := exampleResources (exampleSpec true false true false true) in
  let w := storeWith "depl-ca" {[ "ca.crt" := "certificate" ]} in
  is_Some (Mem.secrets w !! "depl-ca") /\
  run (Mem.handle (H := upstream))
    (ensureTLSCACertificateSecret r (TLS (GetSpec r))) w
  = {| result := None; world := w;
       trace := [Called (SecretsGet "depl-ca")] |}.
Proof.
  intros r w. split; [vm_compute; eauto |].
  eapply (proj1 (ensureCA_found (Mem.handle (H := upstream)) r w w _)
            (TLS (GetSpec r))).
  vm_compute. reflexivity.
Defined.
